(** * django_saml2_auth/views.py: a shallow embedding of the SSO views

    The views of the package are translated function by function.  Python
    dictionaries that are used as maps (the session, [r.GET], [r.POST], the
    identity-attribute bag, [ATTRIBUTES_MAP], [TRIGGER]) are [gmap]s; the
    settings dictionary [settings.SAML2_AUTH], whose keys are fixed, is a
    record of optional fields.  The views are effectful: they read and write
    the session, query and update the user table, log, and call into the SAML
    library.  They are written in a small state-and-exception monad [M] whose
    state [World] also carries the trace of the effects performed, so that
    ordering properties can be stated.

    The collaborators that are not part of the package (Django's URL
    resolver and redirect-safety check, [urllib.parse], pysaml2, the hooks
    loaded with [import_string]) are the fields of the class [Env]. *)

From Stdlib Require Import String Ascii Bool List.
From stdpp Require Import base option list gmap strings.
Import ListNotations.
Local Open Scope string_scope.

(** ** Strings *)

(** [needle in s] for Python strings. *)
Fixpoint str_contains (needle s : string) : bool :=
  String.prefix needle s ||
  match s with
  | EmptyString => false
  | String _ s' => str_contains needle s'
  end.

Definition lower_ascii (c : ascii) : ascii :=
  let n := nat_of_ascii c in
  if (65 <=? n)%nat && (n <=? 90)%nat then ascii_of_nat (n + 32) else c.

Fixpoint lower (s : string) : string :=
  match s with
  | EmptyString => EmptyString
  | String c s' => String (lower_ascii c) (lower s')
  end.

(** The [__iexact] field lookup of the ORM: equality up to letter case. *)
Definition iexact (a b : string) : bool := String.eqb (lower a) (lower b).

(** Python truthiness of a value that is [None] or a string. *)
Definition truthy (o : option string) : bool :=
  match o with
  | Some s => negb (String.eqb s "")
  | None => false
  end.

(** ** Data *)

(** What [reverse] is given: a view function or a URL name. *)
Inductive viewref :=
| ViewFn (name : string)
| ViewName (name : string).

(** The argument of [get_reverse]: one object, or a list or tuple of them. *)
Inductive reverse_arg :=
| One (obj : viewref)
| Many (objs : list viewref).

Inductive exn :=
| ReverseIssue (objs : list viewref)
| KeyError (key : string)
| IndexError
| UserDoesNotExist
| MultipleObjectsReturned
| GroupDoesNotExist (name : string)
| IntegrityError
| External (what : string).

(** [KeyError] and [IndexError] are the subclasses of [LookupError]. *)
Definition is_lookup_error (e : exn) : bool :=
  match e with
  | KeyError _ | IndexError => true
  | _ => false
  end.

Inductive Binding := BINDING_HTTP_REDIRECT | BINDING_HTTP_POST.

Inductive Metadata :=
| MdInline (blobs : list string)
| MdLocal (paths : list string)
| MdRemote (urls : list (option string)).

Record SPService := {
  assertion_consumer_service : list (string * Binding);
  allow_unsolicited : bool;
  authn_requests_signed : bool;
  logout_requests_signed : bool;
  want_assertions_signed : bool;
  want_response_signed : bool;
  name_id_format : option string;
}.

Record SamlSettings := {
  metadata : Metadata;
  service_sp : SPService;
  entityid : option string;
}.

Record Saml2Config := {
  loaded : SamlSettings;
  allow_unknown_attributes : bool;
}.

Record Saml2Client := { config : Saml2Config }.

(** The identity of an assertion: attribute name to list of values. *)
Abbreviation Identity := (gmap string (list string)).

(** An [AuthnResponse], as far as the views look at it. *)
Record AuthnResponse := { get_identity : option Identity }.

Record NewUserProfile := {
  USER_GROUPS : option (list string);
  ACTIVE_STATUS : option bool;
  STAFF_STATUS : option bool;
  SUPERUSER_STATUS : option bool;
}.

(** [settings.SAML2_AUTH]; a field is [None] when the key is absent. *)
Record Settings := {
  ASSERTION_URL : option string;
  DEFAULT_NEXT_URL : option string;
  METADATA_INLINE : option string;
  METADATA_LOCAL_FILE_PATH : option string;
  METADATA_AUTO_CONF_URL : option string;
  NAME_ID_FORMAT : option string;
  ATTRIBUTES_MAP : option (gmap string string);
  TRIGGER : option (gmap string string);
  NEW_USER_PROFILE : option NewUserProfile;
  CREATE_USER : option bool;
}.

Record User := {
  pk : nat;
  username : string;
  email : string;
  first_name : string;
  last_name : string;
  is_active : bool;
  is_staff : bool;
  is_superuser : bool;
  groups : list string;
  backend : option string;
}.

Record Request := {
  GET : gmap string string;
  POST : gmap string string;
  is_secure : bool;
  get_host : string;
}.

Inductive Response :=
| HttpResponseRedirect (redirect_to : option string)
| Render (template : string).

(** ** Effects *)

Inductive level := INFO | WARNING.

Inductive event :=
| ESessionGet (key : string)
| ESessionSet (key value : string)
| ESessionFlush
| ELog (lvl : level) (msg : string)
| EClient (c : SamlSettings)
| EParse (payload : string)
| EPrepare
| EUserLookup (email_iexact : string)
| EUserCreate (uname mail : string)
| EUserSave (id : nat)
| EHook (path : string)
| ELogin (id : nat)
| ELogout.

(** The state a view runs in: the data of the session of the request
    ([session], and [auth], the user the session is logged in as), the user
    and group tables, and the effects performed so far, oldest first. *)
Record World := {
  session : gmap string string;
  auth : option nat;
  users : list User;
  group_table : list string;
  trace : list event;
}.

Inductive Res (A : Type) :=
| Ret (a : A)
| Raise (e : exn).
Arguments Ret {A} a.
Arguments Raise {A} e.

Definition M (A : Type) : Type := World -> Res A * World.

Definition ret {A} (a : A) : M A := fun w => (Ret a, w).
Definition raise {A} (e : exn) : M A := fun w => (Raise e, w).
Definition bind {A B} (m : M A) (k : A -> M B) : M B :=
  fun w => match m w with
           | (Ret a, w') => k a w'
           | (Raise e, w') => (Raise e, w')
           end.

Notation "x <- m ;; k" := (bind m (fun x => k))
  (at level 90, m at level 80, right associativity).
Notation "m ;;; k" := (bind m (fun _ => k))
  (at level 90, right associativity).

(** [try: body except <handled>: handler]. *)
Definition try_except {A} (body : M A) (handled : exn -> bool) (handler : M A) : M A :=
  fun w => match body w with
           | (Raise e, w') => if handled e then handler w' else (Raise e, w')
           | r => r
           end.

(** A result of a collaborator, lifted into [M]. *)
Definition lift {A} (r : exn + A) : M A :=
  match r with
  | inr a => ret a
  | inl e => raise e
  end.

Definition emit (e : event) : M unit :=
  fun w => (Ret tt, {| session := session w; auth := auth w; users := users w;
                       group_table := group_table w; trace := trace w ++ [e] |}).

Definition set_session (s : gmap string string) (a : option nat) : M unit :=
  fun w => (Ret tt, {| session := s; auth := a; users := users w;
                       group_table := group_table w; trace := trace w |}).

Definition set_users (us : list User) : M unit :=
  fun w => (Ret tt, {| session := session w; auth := auth w; users := us;
                       group_table := group_table w; trace := trace w |}).

Definition get_world : M World := fun w => (Ret w, w).

(** [r.session.get(key)] and [r.session.get(key, default)]. *)
Definition session_get (key : string) : M (option string) :=
  emit (ESessionGet key) ;;;
  w <- get_world ;;
  ret (session w !! key).

Definition session_get_default (key dflt : string) : M string :=
  emit (ESessionGet key) ;;;
  w <- get_world ;;
  ret (default dflt (session w !! key)).

(** [r.session[key] = value]. *)
Definition session_setitem (key value : string) : M unit :=
  emit (ESessionSet key value) ;;;
  w <- get_world ;;
  set_session (<[key := value]> (session w)) (auth w).

(** [r.session.flush()]: the session data is deleted, and with it the user
    the session was logged in as. *)
Definition session_flush : M unit :=
  emit ESessionFlush ;;;
  set_session ∅ None.

(** [login(r, user)]: the session is bound to the user.  Django keeps the
    binding under the keys [_auth_user_id], [_auth_user_backend] and
    [_auth_user_hash] of the session; here it is the field [auth], apart from
    the application data [session], which therefore never hold these keys.
    Django also sends [user_logged_in], whose receiver saves [last_login] on
    the row of the user: that column is not one of those of [User], and the
    event [ELogin] stands for the whole call. *)
Definition login (user : User) : M unit :=
  emit (ELogin (pk user)) ;;;
  w <- get_world ;;
  set_session (session w) (Some (pk user)).

(** [logout(r)] flushes the session. *)
Definition logout : M unit :=
  emit ELogout ;;;
  set_session ∅ None.

Definition logger (lvl : level) (msg : string) : M unit := emit (ELog lvl msg).

(** ** Collaborators *)

(** The part of [urllib.parse.urlparse]'s result that the views read. *)
Record ParseResult := { query : string }.

(** What the views call outside the package.  A [None] of [reverse] is a
    failed reversal (any exception: [get_reverse] catches them all); an
    [inl] is the exception the collaborator raises. *)
Class Env := {
  reverse : viewref -> option string;
  url_has_allowed_host_and_scheme : string -> option (list string) -> bool;
  unquote : string -> string;
  urlparse : string -> exn + ParseResult;
  parse_qs : string -> exn + gmap string (list string);
  Saml2Config_load : SamlSettings -> exn + unit;
  parse_authn_request_response :
    Saml2Client -> string -> Binding -> exn + option AuthnResponse;
  prepare_for_authenticate : Saml2Client -> exn + (string * list (string * string));
  import_string : string -> exn + (Identity -> exn + unit);
  normalize_email : string -> string;
}.

(** ** The user and group tables *)

Definition with_names (u : User) (first last : string) : User :=
  {| pk := pk u; username := username u; email := email u;
     first_name := first; last_name := last;
     is_active := is_active u; is_staff := is_staff u;
     is_superuser := is_superuser u; groups := groups u; backend := backend u |}.

Definition with_groups (u : User) (gs : list string) : User :=
  {| pk := pk u; username := username u; email := email u;
     first_name := first_name u; last_name := last_name u;
     is_active := is_active u; is_staff := is_staff u;
     is_superuser := is_superuser u; groups := gs; backend := backend u |}.

Definition with_flags (u : User) (active staff super : bool) : User :=
  {| pk := pk u; username := username u; email := email u;
     first_name := first_name u; last_name := last_name u;
     is_active := active; is_staff := staff;
     is_superuser := super; groups := groups u; backend := backend u |}.

Definition with_backend (u : User) (b : string) : User :=
  {| pk := pk u; username := username u; email := email u;
     first_name := first_name u; last_name := last_name u;
     is_active := is_active u; is_staff := is_staff u;
     is_superuser := is_superuser u; groups := groups u; backend := Some b |}.

Definition fresh_pk (us : list User) : nat :=
  S (fold_right (fun u n => Nat.max (pk u) n) 0 us).

(** [User.objects.get(email__iexact=e)]. *)
Definition User_objects_get (email_iexact : string) : M User :=
  emit (EUserLookup email_iexact) ;;;
  w <- get_world ;;
  match List.filter (fun u => iexact (email u) email_iexact) (users w) with
  | [] => raise UserDoesNotExist
  | [u] => ret u
  | _ => raise MultipleObjectsReturned
  end.

(** [Group.objects.get(name=x)]; group names are unique. *)
Definition Group_objects_get (name : string) : M string :=
  w <- get_world ;;
  if existsb (String.eqb name) (group_table w) then ret name
  else raise (GroupDoesNotExist name).

(** [user.groups.set(groups)] writes the memberships at once, each group
    once. *)
Definition groups_set (user : User) (gs : list string) : M User :=
  w <- get_world ;;
  set_users (map (fun v => if Nat.eqb (pk v) (pk user)
                           then with_groups v (remove_dups gs) else v)
                 (users w)) ;;;
  ret (with_groups user (remove_dups gs)).

(** [user.save()] writes the row of the user. *)
Definition save (user : User) : M unit :=
  emit (EUserSave (pk user)) ;;;
  w <- get_world ;;
  set_users (map (fun v => if Nat.eqb (pk v) (pk user) then user else v) (users w)).

(** A list comprehension whose element expression has effects. *)
Fixpoint for_each {A B} (f : A -> M B) (l : list A) : M (list B) :=
  match l with
  | [] => ret []
  | x :: l' => y <- f x ;; ys <- for_each f l' ;; ret (y :: ys)
  end.

(** [d[key]] and [l[0]]. *)
Definition getitem {V} (d : gmap string V) (key : string) : M V :=
  match d !! key with
  | Some v => ret v
  | None => raise (KeyError key)
  end.

Definition getitem0 {V} (l : list V) : M V :=
  match l with
  | v :: _ => ret v
  | [] => raise IndexError
  end.

(** [for key, value in headers: if key == "Location": ...; break]. *)
Fixpoint find_location (headers : list (string * string)) : option string :=
  match headers with
  | [] => None
  | (key, value) :: rest =>
      if String.eqb key "Location" then Some value else find_location rest
  end.

Definition acs_objs : reverse_arg :=
  Many [ViewFn "acs"; ViewName "acs"; ViewName "django_saml2_auth:acs"].
Definition denied_objs : reverse_arg :=
  Many [ViewFn "denied"; ViewName "denied"; ViewName "django_saml2_auth:denied"].

(** ** The views *)

Section Views.
Context `{E : Env}.
Variable settings : Settings.

(** The template loader of the deployment, and the normalisation (NFKC)
    that [create_user] applies to a username. *)
Variable template_exists : string -> bool.
Variable normalize_username : string -> string.

Definition get_current_domain (r : Request) : string :=
  match ASSERTION_URL settings with
  | Some url => url
  | None => (if is_secure r then "https" else "http") ++ "://" ++ get_host r
  end.

Fixpoint first_reverse (objs : list viewref) : option string :=
  match objs with
  | [] => None
  | obj :: rest =>
      match reverse obj with
      | Some url => Some url
      | None => first_reverse rest
      end
  end.

Definition get_reverse (objs : reverse_arg) : M string :=
  let objs := match objs with One obj => [obj] | Many l => l end in
  match first_reverse objs with
  | Some url => ret url
  | None => raise (ReverseIssue objs)
  end.

Definition _get_metadata : M Metadata :=
  match METADATA_INLINE settings with
  | Some inline => ret (MdInline [inline])
  | None =>
      match METADATA_LOCAL_FILE_PATH settings with
      | Some path => ret (MdLocal [path])
      | None =>
          match METADATA_AUTO_CONF_URL settings with
          | Some url => ret (MdRemote [Some url])
          | None => raise (KeyError "METADATA_AUTO_CONF_URL")
          end
      end
  end.

Definition _get_saml_client (domain : string)
    (metadata_conf_url metadata_conf_raw : option string) : M Saml2Client :=
  let metadata :=
    if truthy metadata_conf_raw then MdInline (option_list metadata_conf_raw)
    else match METADATA_INLINE settings with
         | Some inline => MdInline [inline]
         | None => MdRemote [metadata_conf_url]
         end in
  path <- get_reverse acs_objs ;;
  let acs_url := domain ++ path in
  let sp :=
    {| assertion_consumer_service :=
         [(acs_url, BINDING_HTTP_REDIRECT); (acs_url, BINDING_HTTP_POST)];
       allow_unsolicited := true;
       authn_requests_signed := false;
       logout_requests_signed := true;
       want_assertions_signed := true;
       want_response_signed := false;
       name_id_format := NAME_ID_FORMAT settings |} in
  let saml_settings :=
    {| metadata := metadata; service_sp := sp; entityid := Some acs_url |} in
  emit (EClient saml_settings) ;;;
  lift (Saml2Config_load saml_settings) ;;;
  let spConfig := {| loaded := saml_settings; allow_unknown_attributes := true |} in
  ret {| config := spConfig |}.

(** [render(r, template, ...)], where the template may be missing. *)
Definition render (template : string) : M Response :=
  if template_exists template then ret (Render template)
  else raise (External "TemplateDoesNotExist").

Definition denied (r : Request) : M Response :=
  render "django_saml2_auth/denied.html".

Definition new_user_profile : NewUserProfile :=
  default {| USER_GROUPS := None; ACTIVE_STATUS := None;
             STAFF_STATUS := None; SUPERUSER_STATUS := None |}
          (NEW_USER_PROFILE settings).

(** [User.objects.create_user(username, email)]: an empty username is
    refused with [ValueError]; the email and the username are normalised, and
    a new row with the fields' defaults is inserted; usernames are unique. *)
Definition create_user (uname mail : string) : M User :=
  emit (EUserCreate uname mail) ;;;
  if String.eqb uname "" then raise (External "ValueError")
  else
    w <- get_world ;;
    if existsb (fun u => String.eqb (username u) (normalize_username uname)) (users w)
    then raise IntegrityError
    else
      let user :=
        {| pk := fresh_pk (users w); username := normalize_username uname;
           email := normalize_email mail; first_name := ""; last_name := "";
           is_active := true; is_staff := false; is_superuser := false;
           groups := []; backend := None |} in
      set_users (users w ++ [user]) ;;;
      ret user.

(** [settings.SAML2_AUTH.get("NEW_USER_PROFILE", {})] is read for each
    default; the groups are looked up after the user row is created, and a
    missing group leaves that row behind. *)
Definition _create_new_user (uname mail firstname lastname : string) : M User :=
  user <- create_user uname mail ;;
  let user := with_names user firstname lastname in
  gs <- for_each Group_objects_get (default [] (USER_GROUPS new_user_profile)) ;;
  user <- groups_set user gs ;;
  let user := with_flags user
                (default true (ACTIVE_STATUS new_user_profile))
                (default true (STAFF_STATUS new_user_profile))
                (default false (SUPERUSER_STATUS new_user_profile)) in
  save user ;;;
  ret user.

Definition attribute_name (logical dflt : string) : string :=
  default dflt (default ∅ (ATTRIBUTES_MAP settings) !! logical).

Definition handles_DoesNotExist (e : exn) : bool :=
  match e with UserDoesNotExist => true | _ => false end.

Definition acs (r : Request) : M Response :=
  saml_metadata_conf_url <- session_get "saml_metadata_conf_url" ;;
  saml_metadata_conf_raw <- session_get "saml_metadata_conf_raw" ;;
  if negb (truthy saml_metadata_conf_url) && negb (truthy saml_metadata_conf_raw)
  then
    logger INFO "No saml_metadata_conf found" ;;;
    url <- get_reverse (One (ViewName "sso_login")) ;;
    ret (HttpResponseRedirect (Some url))
  else
    saml_client <- _get_saml_client (get_current_domain r)
                     saml_metadata_conf_url saml_metadata_conf_raw ;;
    let resp := POST r !! "SAMLResponse" in
    admin_index <- get_reverse (One (ViewName "admin:index")) ;;
    next_url <- session_get_default "login_next_url"
                  (default admin_index (DEFAULT_NEXT_URL settings)) ;;
    if negb (truthy resp)
    then
      url <- get_reverse denied_objs ;;
      ret (HttpResponseRedirect (Some url))
    else
      emit (EParse (default "" resp)) ;;;
      authn_response <- lift (parse_authn_request_response saml_client
                                (default "" resp) BINDING_HTTP_POST) ;;
      match authn_response with
      | None =>
          url <- get_reverse denied_objs ;;
          ret (HttpResponseRedirect (Some url))
      | Some authn_response =>
      match get_identity authn_response with
      | None =>
          url <- get_reverse denied_objs ;;
          ret (HttpResponseRedirect (Some url))
      | Some user_identity =>
          user_email <- (vs <- getitem user_identity (attribute_name "email" "Email") ;;
                         getitem0 vs) ;;
          user_name <- (vs <- getitem user_identity (attribute_name "username" "UserName") ;;
                        getitem0 vs) ;;
          user_first_name <- (vs <- getitem user_identity
                                      (attribute_name "first_name" "FirstName") ;;
                              getitem0 vs) ;;
          user_last_name <- (vs <- getitem user_identity
                                     (attribute_name "last_name" "LastName") ;;
                             getitem0 vs) ;;
          found <- try_except
            (target_user <- User_objects_get user_email ;;
             (if truthy (default ∅ (TRIGGER settings) !! "BEFORE_LOGIN")
              then
                let path := default "" (default ∅ (TRIGGER settings) !! "BEFORE_LOGIN") in
                hook <- lift (import_string path) ;;
                emit (EHook path) ;;;
                lift (hook user_identity)
              else ret tt) ;;;
             ret (inl target_user))
            handles_DoesNotExist
            (logger WARNING ("SSO user was not found: " ++ user_email) ;;;
             ret (inr (HttpResponseRedirect (Some "/login/?sso_login_no_user=true")))) ;;
          match found with
          | inr response => ret response
          | inl target_user =>
              session_flush ;;;
              if is_active target_user
              then
                let target_user :=
                  with_backend target_user "django.contrib.auth.backends.ModelBackend" in
                login target_user ;;;
                ret (HttpResponseRedirect (Some next_url))
              else
                url <- get_reverse denied_objs ;;
                ret (HttpResponseRedirect (Some url))
          end
      end
      end.

(** A bare [except:]. *)
Definition catches_all (e : exn) : bool := true.

(** [url_has_allowed_host_and_scheme] exists from Django 3.0 on, so that the
    module only loads where the version test of [signin] (and that of
    [_create_new_user]) takes the branch for 2.0 and later: the check is
    called with [allowed_hosts=None]. *)

Definition signin (r : Request) : M Response :=
  admin_index <- get_reverse (One (ViewName "admin:index")) ;;
  let next_url := default (default admin_index (DEFAULT_NEXT_URL settings))
                          (GET r !! "next") in
  next_url <- try_except
    (if str_contains "next=" (unquote next_url)
     then
       parsed <- lift (urlparse (unquote next_url)) ;;
       qs <- lift (parse_qs (query parsed)) ;;
       vs <- getitem qs "next" ;;
       getitem0 vs
     else ret next_url)
    catches_all
    (admin_index <- get_reverse (One (ViewName "admin:index")) ;;
     ret (default (default admin_index (DEFAULT_NEXT_URL settings))
                  (GET r !! "next"))) ;;
  let url_ok := url_has_allowed_host_and_scheme next_url None in
  if negb url_ok
  then
    url <- get_reverse denied_objs ;;
    ret (HttpResponseRedirect (Some url))
  else
    session_setitem "login_next_url" next_url ;;;
    saml_metadata_conf_url <- session_get "saml_metadata_conf_url" ;;
    saml_metadata_conf_raw <- session_get "saml_metadata_conf_raw" ;;
    saml_client <- _get_saml_client (get_current_domain r)
                     saml_metadata_conf_url saml_metadata_conf_raw ;;
    emit EPrepare ;;;
    prepared <- lift (prepare_for_authenticate saml_client) ;;
    let redirect_url := find_location (snd prepared) in
    ret (HttpResponseRedirect redirect_url).

Definition signout (r : Request) : M Response :=
  logout ;;;
  render "django_saml2_auth/signout.html".

End Views.

(** ** Worlds and traces *)

(** The world with more effects recorded. *)
Definition add_trace (w : World) (evs : list event) : World :=
  {| session := session w; auth := auth w; users := users w;
     group_table := group_table w; trace := trace w ++ evs |}.


(** The events a run of [m] from [w] adds are [evs]. *)
Definition adds {A} (m : M A) (w : World) (evs : list event) : Prop :=
  trace (snd (m w)) = (trace w ++ evs)%list.

(** ** The unwrapping of a nested redirect, in the words of the specification *)

Section Unwrapping.
Context `{E : Env}.
Variable settings : Settings.

(** The caller-supplied target, or the configured default destination. *)
Definition requested_next (r : Request) (admin_index : string) : string :=
  default (default admin_index (DEFAULT_NEXT_URL settings)) (GET r !! "next").

(** The first value of the [next] query parameter of a decoded URL, if the
    URL parses and has one. *)
Definition inner_next (decoded : string) : option string :=
  match urlparse decoded with
  | inr parsed =>
      match parse_qs (query parsed) with
      | inr qs => match qs !! "next" with
                  | Some (v :: _) => Some v
                  | _ => None
                  end
      | inl _ => None
      end
  | inl _ => None
  end.

(** If the decoded value contains [next=], its inner [next] parameter
    replaces the target; the original value stays on any failure. *)
Definition unwrapped_next (next_url : string) : string :=
  if str_contains "next=" (unquote next_url)
  then default next_url (inner_next (unquote next_url))
  else next_url.

End Unwrapping.

(** ** Two readings that the code does not have *)

(** Every invocation of [acs] that finds flow state in the session flushes
    the session before it returns. *)
Definition acs_always_flushes_flow_state : Prop :=
  forall (E : Env) (settings : Settings) (r : Request) (w : World) (evs : list event),
    truthy (session w !! "saml_metadata_conf_url")
      || truthy (session w !! "saml_metadata_conf_raw") = true ->
    adds (acs settings r) w evs ->
    ESessionFlush ∈ evs /\ session (snd (acs settings r w)) = ∅.

(** With [CREATE_USER] switched on, an email that matches no user makes
    [acs] create one. *)
Definition acs_provisions_when_enabled : Prop :=
  forall (E : Env) (settings : Settings) (r : Request) (w : World)
         (evs : list event) (mail : string),
    CREATE_USER settings = Some true ->
    adds (acs settings r) w evs ->
    EUserLookup mail ∈ evs ->
    List.filter (fun u => iexact (email u) mail) (users w) = [] ->
    (exists uname, EUserCreate uname mail ∈ evs) /\
    length (users (snd (acs settings r w))) = S (length (users w)).

(** ** A sample deployment *)

Module Demo.

Definition routes (obj : viewref) : option string :=
  match obj with
  | ViewFn name =>
      if String.eqb name "acs" then Some "/sso/acs/"
      else if String.eqb name "denied" then Some "/sso/denied/"
      else None
  | ViewName name =>
      if String.eqb name "sso_login" then Some "/sso/login/"
      else if String.eqb name "admin:index" then Some "/admin/"
      else None
  end.

(** Host-less paths only, as with [allowed_hosts=None]. *)
Definition local_path (url : string) (allowed_hosts : option (list string)) : bool :=
  String.prefix "/" url && negb (String.prefix "//" url).

Fixpoint split_at (c : ascii) (s : string) : string * option string :=
  match s with
  | EmptyString => (EmptyString, None)
  | String a s' =>
      if Ascii.eqb a c then (EmptyString, Some s')
      else let (h, t) := split_at c s' in (String a h, t)
  end.

Fixpoint split_on (c : ascii) (s : string) : list string :=
  match s with
  | EmptyString => [EmptyString]
  | String a s' =>
      let pieces := split_on c s' in
      if Ascii.eqb a c then EmptyString :: pieces
      else match pieces with
           | h :: t => String a h :: t
           | [] => [String a EmptyString]
           end
  end.

Definition query_of (url : string) : exn + ParseResult :=
  if str_contains "[" url then inl (External "ValueError")
  else inr {| query := default "" (snd (split_at "?" url)) |}.

Definition pairs_of (qs : string) : exn + gmap string (list string) :=
  inr (fold_right
         (fun piece (m : gmap string (list string)) =>
            match split_at "=" piece with
            | (k, Some v) =>
                if String.eqb v "" then m else <[k := v :: default [] (m !! k)]> m
            | (_, None) => m
            end)
         ∅ (split_on "&" qs)).

Definition identity_of (mails : list string) (uname : string) : Identity :=
  <["Email" := mails]> (<["UserName" := [uname]]>
    (<["FirstName" := ["F"]]> (<["LastName" := ["L"]]> ∅))).

(** The IdP's answers, by payload. *)
Definition validate (c : Saml2Client) (payload : string) (b : Binding)
    : exn + option AuthnResponse :=
  if String.eqb payload "alice" then
    inr (Some {| get_identity :=
                   Some (identity_of ["ALICE@example.com"; "alias@example.com"] "alice") |})
  else if String.eqb payload "carol" then
    inr (Some {| get_identity := Some (identity_of ["carol@example.com"] "carol") |})
  else if String.eqb payload "mallory" then
    inr (Some {| get_identity := Some (identity_of ["mallory@example.com"] "mallory") |})
  else if String.eqb payload "anonymous" then
    inr (Some {| get_identity := Some (<["UserName" := ["x"]]> ∅) |})
  else if String.eqb payload "empty" then
    inr (Some {| get_identity := None |})
  else if String.eqb payload "tampered" then inl (External "SignatureError")
  else inr None.

#[global] Instance env : Env := {|
  reverse := routes;
  url_has_allowed_host_and_scheme := local_path;
  unquote := fun s => s;
  urlparse := query_of;
  parse_qs := pairs_of;
  Saml2Config_load := fun _ => inr tt;
  parse_authn_request_response := validate;
  prepare_for_authenticate := fun _ =>
    inr ("id-1", [("Cache-Control", "no-cache");
                  ("Location", "https://idp.example/sso?SAMLRequest=abc")]);
  import_string := fun _ => inr (fun _ => inr tt);
  normalize_email := fun s => s;
|}.

Definition plain : Settings :=
  {| ASSERTION_URL := None; DEFAULT_NEXT_URL := None; METADATA_INLINE := None;
     METADATA_LOCAL_FILE_PATH := None; METADATA_AUTO_CONF_URL := None;
     NAME_ID_FORMAT := None; ATTRIBUTES_MAP := None; TRIGGER := None;
     NEW_USER_PROFILE := None; CREATE_USER := None |}.

(** Everything that the provisioning branch would read is configured. *)
Definition provisioning : Settings :=
  {| ASSERTION_URL := None; DEFAULT_NEXT_URL := None; METADATA_INLINE := None;
     METADATA_LOCAL_FILE_PATH := None; METADATA_AUTO_CONF_URL := None;
     NAME_ID_FORMAT := None; ATTRIBUTES_MAP := None;
     TRIGGER := Some {["CREATE_USER" := "hooks.user_created"]};
     NEW_USER_PROFILE :=
       Some {| USER_GROUPS := Some ["staff"]; ACTIVE_STATUS := Some true;
               STAFF_STATUS := Some false; SUPERUSER_STATUS := None |};
     CREATE_USER := Some true |}.

Definition account (id : nat) (uname mail : string) (active : bool) : User :=
  {| pk := id; username := uname; email := mail; first_name := "";
     last_name := ""; is_active := active; is_staff := false;
     is_superuser := false; groups := []; backend := None |}.

Definition alice := account 1 "alice" "Alice@Example.com" true.
Definition carol := account 2 "carol" "carol@example.com" false.

Definition flow : gmap string string :=
  <["saml_metadata_conf_raw" := "<EntityDescriptor/>"]>
    (<["login_next_url" := "/dashboard"]> ∅).

(** A browser that went through the initiation. *)
Definition started : World :=
  {| session := flow; auth := None; users := [alice; carol];
     group_table := ["staff"]; trace := [] |}.

(** A browser that did not. *)
Definition fresh : World :=
  {| session := ∅; auth := None; users := [alice; carol];
     group_table := ["staff"]; trace := [] |}.

Definition post (payload : string) : Request :=
  {| GET := ∅; POST := {["SAMLResponse" := payload]};
     is_secure := true; get_host := "app.example" |}.

Definition post_nothing : Request :=
  {| GET := ∅; POST := ∅; is_secure := true; get_host := "app.example" |}.

Definition get (next : string) : Request :=
  {| GET := {["next" := next]}; POST := ∅;
     is_secure := true; get_host := "app.example" |}.

End Demo.

(** ** Conditions on a run of the consumer *)

Section Conditions.
Context `{E : Env}.
Variable settings : Settings.

(** The session of [w] carries flow state. *)
Definition has_flow_state (w : World) : Prop :=
  truthy (session w !! "saml_metadata_conf_url")
    || truthy (session w !! "saml_metadata_conf_raw") = true.

(** The request carries an assertion that the SAML client built for the
    flow validates, with the identity [identity]; the default destination
    reverses to [admin]. *)
Definition validated (r : Request) (w : World) (client : Saml2Client)
    (admin payload : string) (identity : Identity) : Prop :=
  has_flow_state w /\
  fst (_get_saml_client settings (get_current_domain settings r)
         (session w !! "saml_metadata_conf_url")
         (session w !! "saml_metadata_conf_raw") w) = Ret client /\
  reverse (ViewName "admin:index") = Some admin /\
  POST r !! "SAMLResponse" = Some payload /\
  payload <> "" /\
  exists response,
    parse_authn_request_response client payload BINDING_HTTP_POST
      = inr (Some response) /\
    get_identity response = Some identity.

(** The identity has the four attributes, each with a first value. *)
Definition has_attributes (identity : Identity) (mail uname first last : string) : Prop :=
  (exists more, identity !! attribute_name settings "email" "Email" = Some (mail :: more)) /\
  (exists more, identity !! attribute_name settings "username" "UserName"
                = Some (uname :: more)) /\
  (exists more, identity !! attribute_name settings "first_name" "FirstName"
                = Some (first :: more)) /\
  (exists more, identity !! attribute_name settings "last_name" "LastName"
                = Some (last :: more)).

(** One of the four attributes is absent from the identity. *)
Definition lacks_attribute (identity : Identity) : Prop :=
  identity !! attribute_name settings "email" "Email" = None \/
  identity !! attribute_name settings "username" "UserName" = None \/
  identity !! attribute_name settings "first_name" "FirstName" = None \/
  identity !! attribute_name settings "last_name" "LastName" = None.

(** The [BEFORE_LOGIN] hook, when one is configured, loads and returns. *)
Definition before_login_returns (identity : Identity) : Prop :=
  forall path,
    default ∅ (TRIGGER settings) !! "BEFORE_LOGIN" = Some path ->
    path <> "" ->
    exists hook, import_string path = inr hook /\ hook identity = inr tt.

(** The events of [acs] up to the parsing of the assertion. *)
Definition validation_events (client : Saml2Client) (payload : string) : list event :=
  [ESessionGet "saml_metadata_conf_url"; ESessionGet "saml_metadata_conf_raw";
   EClient (loaded (config client)); ESessionGet "login_next_url"; EParse payload].

(** The events of the [BEFORE_LOGIN] hook. *)
Definition hook_events : list event :=
  match default ∅ (TRIGGER settings) !! "BEFORE_LOGIN" with
  | Some path => if String.eqb path "" then [] else [EHook path]
  | None => []
  end.

End Conditions.

(** ** The welcome page *)

Section Welcome.
Context `{E : Env}.
Variable settings : Settings.

(** The template loader of the deployment, and the answer that
    [login_required] gives to a request that is not logged in (a redirect to
    the login URL of the project). *)
Variable template_exists : string -> bool.
Variable redirect_to_login : Request -> Response.

Definition handles_TemplateDoesNotExist (e : exn) : bool :=
  match e with
  | External what => String.eqb what "TemplateDoesNotExist"
  | _ => false
  end.

(** The [@login_required] decorator: the view runs for a session that is
    logged in. *)
Definition login_required (view : Request -> M Response) (r : Request) : M Response :=
  w <- get_world ;;
  match auth w with
  | Some _ => view r
  | None => ret (redirect_to_login r)
  end.

Definition welcome : Request -> M Response :=
  login_required (fun r =>
    try_except
      (render template_exists "django_saml2_auth/welcome.html")
      handles_TemplateDoesNotExist
      (admin_index <- get_reverse (One (ViewName "admin:index")) ;;
       ret (HttpResponseRedirect
              (Some (default admin_index (DEFAULT_NEXT_URL settings)))))).

End Welcome.

(** ** Further conditions on runs *)

(** The row that [create_user] inserts, before [_create_new_user] sets
    names, groups and flags. *)
Definition created_row `{E : Env} (normalize_username : string -> string)
    (us : list User) (uname mail : string) : User :=
  {| pk := fresh_pk us; username := normalize_username uname;
     email := normalize_email mail;
     first_name := ""; last_name := ""; is_active := true; is_staff := false;
     is_superuser := false; groups := []; backend := None |}.

(** No header of the list is a [Location] header. *)
Definition no_location (headers : list (string * string)) : Prop :=
  forall key value, (key, value) ∈ headers -> key <> "Location".

(** The responses that [acs] can give. *)
Definition acs_response `{E : Env} (settings : Settings) (w : World)
    (response : Response) : Prop :=
  (exists url, reverse (ViewName "sso_login") = Some url /\
               response = HttpResponseRedirect (Some url)) \/
  (exists url, first_reverse [ViewFn "denied"; ViewName "denied";
                              ViewName "django_saml2_auth:denied"] = Some url /\
               response = HttpResponseRedirect (Some url)) \/
  response = HttpResponseRedirect (Some "/login/?sso_login_no_user=true") \/
  (exists admin, reverse (ViewName "admin:index") = Some admin /\
     response = HttpResponseRedirect
                  (Some (default (default admin (DEFAULT_NEXT_URL settings))
                                 (session w !! "login_next_url")))).

(** The settings in the trace of a run are those that [_get_saml_client]
    builds for the domain and the metadata of the session. *)
Definition built_for `{E : Env} (settings : Settings) (r : Request) (w : World)
    (s : SamlSettings) : Prop :=
  forall w0,
    adds (_get_saml_client settings (get_current_domain settings r)
            (session w !! "saml_metadata_conf_url")
            (session w !! "saml_metadata_conf_raw")) w0 [EClient s].

(** A second sample deployment: the hook of the first cannot find the user,
    and nothing but the consumer endpoint reverses. *)
Module Demo2.

Definition failing_hook (path : string) : exn + (Identity -> exn + unit) :=
  if String.eqb path "hooks.lookup" then inr (fun _ => inl UserDoesNotExist)
  else if String.eqb path "hooks.audit" then inr (fun _ => inl (External "AuditDown"))
  else inl (External "ImportError").

Definition hooked : Env := {|
  reverse := Demo.routes;
  url_has_allowed_host_and_scheme := Demo.local_path;
  unquote := fun s => s;
  urlparse := Demo.query_of;
  parse_qs := Demo.pairs_of;
  Saml2Config_load := fun _ => inr tt;
  parse_authn_request_response := Demo.validate;
  prepare_for_authenticate := fun _ => inr ("id-2", [("Pragma", "no-cache")]);
  import_string := failing_hook;
  normalize_email := fun s => s;
|}.

Definition only_acs (obj : viewref) : option string :=
  match obj with
  | ViewFn name => if String.eqb name "acs" then Some "/sso/acs/" else None
  | ViewName _ => None
  end.

Definition bare : Env := {|
  reverse := only_acs;
  url_has_allowed_host_and_scheme := Demo.local_path;
  unquote := fun s => s;
  urlparse := Demo.query_of;
  parse_qs := Demo.pairs_of;
  Saml2Config_load := fun _ => inr tt;
  parse_authn_request_response := Demo.validate;
  prepare_for_authenticate := fun _ => inr ("id-3", []);
  import_string := failing_hook;
  normalize_email := fun s => s;
|}.

Definition with_hook (path : string) : Settings :=
  {| ASSERTION_URL := None; DEFAULT_NEXT_URL := Some "/home/"; METADATA_INLINE := None;
     METADATA_LOCAL_FILE_PATH := Some "/etc/saml/idp.xml"; METADATA_AUTO_CONF_URL := None;
     NAME_ID_FORMAT := Some "urn:oasis:names:tc:SAML:1.1:nameid-format:emailAddress";
     ATTRIBUTES_MAP := None;
     TRIGGER := Some {["BEFORE_LOGIN" := path]};
     NEW_USER_PROFILE := Some {| USER_GROUPS := Some ["staff"; "finance"];
                                 ACTIVE_STATUS := None; STAFF_STATUS := None;
                                 SUPERUSER_STATUS := None |};
     CREATE_USER := None |}.

(** The settings of the first deployment, with the URL of the service fixed. *)
Definition fixed : Settings :=
  {| ASSERTION_URL := Some "https://sso.example"; DEFAULT_NEXT_URL := None;
     METADATA_INLINE := None; METADATA_LOCAL_FILE_PATH := None;
     METADATA_AUTO_CONF_URL := None; NAME_ID_FORMAT := None; ATTRIBUTES_MAP := None;
     TRIGGER := None; NEW_USER_PROFILE := None; CREATE_USER := None |}.

(** The client of the sample flow, for a name-ID format. *)
Definition client_of (format : option string) : Saml2Client :=
  {| config :=
       {| loaded :=
            {| metadata := MdInline ["<EntityDescriptor/>"];
               service_sp :=
                 {| assertion_consumer_service :=
                      [("https://app.example/sso/acs/", BINDING_HTTP_REDIRECT);
                       ("https://app.example/sso/acs/", BINDING_HTTP_POST)];
                    allow_unsolicited := true; authn_requests_signed := false;
                    logout_requests_signed := true; want_assertions_signed := true;
                    want_response_signed := false; name_id_format := format |};
               entityid := Some "https://app.example/sso/acs/" |};
          allow_unknown_attributes := true |} |}.

Definition email_format : string :=
  "urn:oasis:names:tc:SAML:1.1:nameid-format:emailAddress".

Definition no_template (template : string) : bool := false.

Definition all_templates (template : string) : bool := true.

(** A normalisation of usernames that folds the case of the first letter,
    for want of NFKC. *)
Definition fold_first (s : string) : string :=
  match s with
  | EmptyString => EmptyString
  | String c s' => String (lower_ascii c) s'
  end.

Definition to_login_page (r : Request) : Response :=
  HttpResponseRedirect (Some "/accounts/login/").

(** Two accounts with the same email up to case. *)
Definition twins : World :=
  {| session := Demo.flow; auth := None;
     users := [Demo.alice; Demo.account 3 "alice2" "alice@EXAMPLE.com" true];
     group_table := ["staff"]; trace := [] |}.

End Demo2.
(** ** Running the monad *)

Lemma add_trace_nil w : add_trace w [] = w.
Proof. destruct w; unfold add_trace; simpl. by rewrite app_nil_r. Qed.

Lemma add_trace_app w a b : add_trace (add_trace w a) b = add_trace w (a ++ b).
Proof. unfold add_trace; simpl. by rewrite app_assoc. Qed.

Lemma emit_run e w : emit e w = (Ret tt, add_trace w [e]).
Proof. reflexivity. Qed.

Lemma bind_Ret {A B} (m : M A) (k : A -> M B) w a w' :
  m w = (Ret a, w') -> bind m k w = k a w'.
Proof. intros H. unfold bind. by rewrite H. Qed.

Lemma bind_Raise {A B} (m : M A) (k : A -> M B) w e w' :
  m w = (Raise e, w') -> bind m k w = (Raise e, w').
Proof. intros H. unfold bind. by rewrite H. Qed.

Lemma session_get_run key w :
  session_get key w = (Ret (session w !! key), add_trace w [ESessionGet key]).
Proof. reflexivity. Qed.

Lemma session_get_default_run key dflt w :
  session_get_default key dflt w =
    (Ret (default dflt (session w !! key)), add_trace w [ESessionGet key]).
Proof. reflexivity. Qed.

Lemma session_setitem_run key value w :
  session_setitem key value w =
    (Ret tt, {| session := <[key := value]> (session w); auth := auth w;
                users := users w; group_table := group_table w;
                trace := trace w ++ [ESessionSet key value] |}).
Proof. reflexivity. Qed.

Lemma session_flush_run w :
  session_flush w =
    (Ret tt, {| session := ∅; auth := None; users := users w;
                group_table := group_table w; trace := trace w ++ [ESessionFlush] |}).
Proof. reflexivity. Qed.

Lemma login_run user w :
  login user w =
    (Ret tt, {| session := session w; auth := Some (pk user); users := users w;
                group_table := group_table w; trace := trace w ++ [ELogin (pk user)] |}).
Proof. reflexivity. Qed.

(** One step of a run whose first action is known. *)
Tactic Notation "step" uconstr(H) := erewrite (bind_Ret _ _ _ _ _ H).
Tactic Notation "step_raise" uconstr(H) := erewrite (bind_Raise _ _ _ _ _ H).

(** Symbolic execution: the monad is unfolded, and the run is split on
    whatever it scrutinises. *)
Ltac unfold_run :=
  cbv beta iota zeta delta
    [bind ret raise lift emit get_world set_session set_users try_except
     session_get session_get_default session_setitem session_flush login logger
     User_objects_get getitem getitem0 get_reverse
     handles_DoesNotExist catches_all];
  cbn [fst snd session auth users group_table trace].

Ltac split_run :=
  repeat match goal with
    | |- context [match ?x with _ => _ end] =>
        lazymatch x with
        | context [match _ with _ => _ end] => fail
        | _ => destruct x eqn:?
        end; unfold_run
    | |- context [if ?x then _ else _] =>
        lazymatch x with
        | context [match _ with _ => _ end] => fail
        | context [if _ then _ else _] => fail
        | _ => destruct x eqn:?
        end; unfold_run
    end.

(** The end of a run: both sides are explicit. *)
Ltac finish_run :=
  unfold_run;
  cbn [pk with_backend add_trace session auth users group_table trace];
  rewrite <- ?app_assoc; cbn [app]; reflexivity.

(** Rewriting with the equations that [split_run] leaves in the context. *)
Ltac use_eqns :=
  repeat match goal with
    | H : ?x = _ |- context [match ?x with _ => _ end] => rewrite H
    | H : ?x = _ |- context [if ?x then _ else _] => rewrite H
    end.

(** Membership in an explicit list of events. *)
Ltac in_events :=
  repeat match goal with
    | H : _ ∈ [] |- _ => by apply elem_of_nil in H
    | H : _ ∈ _ :: _ |- _ => apply elem_of_cons in H; destruct H as [H|H]; try discriminate H
    | H : _ ∈ _ ++ _ |- _ => apply elem_of_app in H; destruct H as [H|H]
    end.

Section Runs.
Context `{E : Env}.
Variable settings : Settings.

Lemma get_reverse_run objs w :
  get_reverse objs w =
    (match first_reverse (match objs with One obj => [obj] | Many l => l end) with
     | Some url => Ret url
     | None => Raise (ReverseIssue (match objs with One obj => [obj] | Many l => l end))
     end, w).
Proof. unfold get_reverse. by destruct (first_reverse _). Qed.

Lemma get_reverse_Some objs url w :
  first_reverse (match objs with One obj => [obj] | Many l => l end) = Some url ->
  get_reverse objs w = (Ret url, w).
Proof. intros H. by rewrite get_reverse_run, H. Qed.

Lemma first_reverse_One obj : first_reverse [obj] = reverse obj.
Proof. simpl. by destruct (reverse obj). Qed.

(** The settings dictionary that [_get_saml_client] hands to pysaml2,
    read off the trace, and the outcome of the call. *)
Lemma _get_saml_client_run domain url raw path w :
  first_reverse [ViewFn "acs"; ViewName "acs"; ViewName "django_saml2_auth:acs"]
    = Some path ->
  exists s : SamlSettings,
    _get_saml_client settings domain url raw w =
      (match Saml2Config_load s with
       | inr _ => Ret {| config := {| loaded := s; allow_unknown_attributes := true |} |}
       | inl e => Raise e
       end, add_trace w [EClient s]) /\
    metadata s =
      (if truthy raw then MdInline (option_list raw)
       else match METADATA_INLINE settings with
            | Some inline => MdInline [inline]
            | None => MdRemote [url]
            end) /\
    entityid s = Some (domain ++ path) /\
    service_sp s =
      {| assertion_consumer_service :=
           [(domain ++ path, BINDING_HTTP_REDIRECT); (domain ++ path, BINDING_HTTP_POST)];
         allow_unsolicited := true; authn_requests_signed := false;
         logout_requests_signed := true; want_assertions_signed := true;
         want_response_signed := false;
         name_id_format := NAME_ID_FORMAT settings |}.
Proof.
  intros Hp.
  exists {| metadata :=
              if truthy raw then MdInline (option_list raw)
              else match METADATA_INLINE settings with
                   | Some inline => MdInline [inline]
                   | None => MdRemote [url]
                   end;
            service_sp :=
              {| assertion_consumer_service :=
                   [(domain ++ path, BINDING_HTTP_REDIRECT);
                    (domain ++ path, BINDING_HTTP_POST)];
                 allow_unsolicited := true; authn_requests_signed := false;
                 logout_requests_signed := true; want_assertions_signed := true;
                 want_response_signed := false;
                 name_id_format := NAME_ID_FORMAT settings |};
            entityid := Some (domain ++ path) |}.
  split; [|by repeat split].
  unfold _get_saml_client.
  rewrite (bind_Ret _ _ w path w) by (by apply get_reverse_Some).
  unfold bind at 1. rewrite emit_run.
  unfold bind, lift. destruct (Saml2Config_load _) as [e|[]]; reflexivity.
Qed.

End Runs.

(** ** The SP configuration *)

Section Configuration.
Context `{E : Env}.
Variable settings : Settings.

(** C8.  In [_get_saml_client] an inline raw metadata blob supplied for the
    flow takes priority over the remote metadata URL: whenever the
    consumer endpoint reverses to [path], the settings handed to pysaml2
    (and loaded in the client that is returned) use inline metadata made of
    the blob when [metadata_conf_raw] is non-empty, whatever the URL and
    the settings are; otherwise the inline settings key is looked at, and
    only when it is absent is the remote URL used. *)
Theorem C8_inline_metadata_has_priority domain url raw path w :
  first_reverse [ViewFn "acs"; ViewName "acs"; ViewName "django_saml2_auth:acs"]
    = Some path ->
  exists s : SamlSettings,
    adds (_get_saml_client settings domain url raw) w [EClient s] /\
    (forall c, fst (_get_saml_client settings domain url raw w) = Ret c ->
               loaded (config c) = s) /\
    (forall blob, raw = Some blob -> blob <> "" -> metadata s = MdInline [blob]) /\
    (truthy raw = false -> forall inline,
       METADATA_INLINE settings = Some inline -> metadata s = MdInline [inline]) /\
    (truthy raw = false -> METADATA_INLINE settings = None ->
       metadata s = MdRemote [url]).
Proof.
  intros Hp.
  destruct (_get_saml_client_run settings domain url raw path w Hp)
    as (s & Hrun & Hmd & _ & _).
  exists s. repeat split.
  - unfold adds. by rewrite Hrun.
  - intros c. rewrite Hrun. simpl.
    destruct (Saml2Config_load s); [discriminate|]. by intros [= <-].
  - intros blob -> Hne. rewrite Hmd. simpl.
    destruct (String.eqb_spec blob ""); [contradiction|done].
  - intros Hraw inline Hin. by rewrite Hmd, Hraw, Hin.
  - intros Hraw Hin. by rewrite Hmd, Hraw, Hin.
Qed.

(** C9.  For every domain and metadata reference, whenever the consumer
    endpoint reverses to [path], the SP configuration that
    [_get_saml_client] builds has the assertion-consumer-service URL
    [domain ++ path] (for both bindings), that same URL as entity ID, and
    the fixed policy: unsolicited responses allowed, authentication
    requests unsigned, logout requests signed, assertions wanted signed,
    responses not wanted signed. *)
Theorem C9_sp_configuration domain url raw path w :
  first_reverse [ViewFn "acs"; ViewName "acs"; ViewName "django_saml2_auth:acs"]
    = Some path ->
  exists s : SamlSettings,
    adds (_get_saml_client settings domain url raw) w [EClient s] /\
    (forall c, fst (_get_saml_client settings domain url raw w) = Ret c ->
               loaded (config c) = s) /\
    assertion_consumer_service (service_sp s) =
      [(domain ++ path, BINDING_HTTP_REDIRECT); (domain ++ path, BINDING_HTTP_POST)] /\
    entityid s = Some (domain ++ path) /\
    allow_unsolicited (service_sp s) = true /\
    authn_requests_signed (service_sp s) = false /\
    logout_requests_signed (service_sp s) = true /\
    want_assertions_signed (service_sp s) = true /\
    want_response_signed (service_sp s) = false.
Proof.
  intros Hp.
  destruct (_get_saml_client_run settings domain url raw path w Hp)
    as (s & Hrun & _ & Hid & Hsp).
  exists s. rewrite Hsp. repeat split; try done.
  - unfold adds. by rewrite Hrun.
  - intros c. rewrite Hrun. simpl.
    destruct (Saml2Config_load s); [discriminate|]. by intros [= <-].
Qed.

(** Building the client only adds to the trace. *)
Lemma _get_saml_client_frame domain url raw w :
  exists evs, snd (_get_saml_client settings domain url raw w) = add_trace w evs.
Proof.
  destruct (first_reverse
              [ViewFn "acs"; ViewName "acs"; ViewName "django_saml2_auth:acs"])
    as [path|] eqn:Hp.
  - destruct (_get_saml_client_run settings domain url raw path w Hp) as (s & -> & _).
    by eexists.
  - exists []. unfold _get_saml_client.
    rewrite (bind_Raise _ _ w (ReverseIssue
              [ViewFn "acs"; ViewName "acs"; ViewName "django_saml2_auth:acs"]) w).
    + simpl. by rewrite add_trace_nil.
    + rewrite get_reverse_run. simpl in *. by rewrite Hp.
Qed.

End Configuration.

(** ** The initiation handler *)

Section Initiation.
Context `{E : Env}.
Variable settings : Settings.

(** The [try] block of [signin] computes the unwrapped target and has no
    effect. *)
Lemma signin_unwrap r admin w :
  reverse (ViewName "admin:index") = Some admin ->
  try_except
    (if str_contains "next=" (unquote (requested_next settings r admin))
     then
       parsed <- lift (urlparse (unquote (requested_next settings r admin))) ;;
       qs <- lift (parse_qs (query parsed)) ;;
       vs <- getitem qs "next" ;;
       getitem0 vs
     else ret (requested_next settings r admin))
    catches_all
    (admin_index <- get_reverse (One (ViewName "admin:index")) ;;
     ret (default (default admin_index (DEFAULT_NEXT_URL settings))
                  (GET r !! "next"))) w
  = (Ret (unwrapped_next (requested_next settings r admin)), w).
Proof.
  intros Hadmin.
  set (handler := (admin_index <- get_reverse (One (ViewName "admin:index")) ;;
                   ret (default (default admin_index (DEFAULT_NEXT_URL settings))
                                (GET r !! "next")))).
  assert (Hh : handler w = (Ret (requested_next settings r admin), w)).
  { subst handler. rewrite (bind_Ret _ _ w admin w); [done|].
    apply get_reverse_Some. by rewrite first_reverse_One. }
  unfold try_except, unwrapped_next, inner_next.
  destruct (str_contains _ _); [|done].
  unfold bind, lift, getitem, getitem0.
  destruct (urlparse _) as [e|parsed]; simpl; [by rewrite Hh|].
  destruct (parse_qs _) as [e|qs]; simpl; [by rewrite Hh|].
  destruct (qs !! "next") as [[|v vs]|]; simpl; by rewrite ?Hh.
Qed.

(** [signin], once the target is resolved. *)
Lemma signin_resolved r admin w :
  reverse (ViewName "admin:index") = Some admin ->
  signin settings r w =
    (let next_url := unwrapped_next (requested_next settings r admin) in
     if negb (url_has_allowed_host_and_scheme next_url None)
     then
       url <- get_reverse denied_objs ;;
       ret (HttpResponseRedirect (Some url))
     else
       session_setitem "login_next_url" next_url ;;;
       saml_metadata_conf_url <- session_get "saml_metadata_conf_url" ;;
       saml_metadata_conf_raw <- session_get "saml_metadata_conf_raw" ;;
       saml_client <- _get_saml_client settings (get_current_domain settings r)
                        saml_metadata_conf_url saml_metadata_conf_raw ;;
       emit EPrepare ;;;
       prepared <- lift (prepare_for_authenticate saml_client) ;;
       ret (HttpResponseRedirect (find_location (snd prepared)))) w.
Proof.
  intros Hadmin. unfold signin.
  rewrite (bind_Ret _ _ w admin w)
    by (apply get_reverse_Some; by rewrite first_reverse_One).
  fold (requested_next settings r admin).
  by rewrite (bind_Ret _ _ w _ w (signin_unwrap r admin w Hadmin)).
Qed.

(** What [signin] does with an unsafe target. *)
Lemma signin_unsafe r admin w :
  reverse (ViewName "admin:index") = Some admin ->
  url_has_allowed_host_and_scheme
    (unwrapped_next (requested_next settings r admin)) None = false ->
  signin settings r w =
    (match first_reverse
             [ViewFn "denied"; ViewName "denied"; ViewName "django_saml2_auth:denied"] with
     | Some url => Ret (HttpResponseRedirect (Some url))
     | None => Raise (ReverseIssue
                 [ViewFn "denied"; ViewName "denied"; ViewName "django_saml2_auth:denied"])
     end, w).
Proof.
  intros Hadmin Hbad. rewrite (signin_resolved r admin w Hadmin).
  cbv zeta. rewrite Hbad. cbn [negb].
  unfold bind. rewrite get_reverse_run. cbn [denied_objs].
  by destruct (first_reverse _).
Qed.

(** What [signin] does with a safe target: it is stored first, and
    nothing that follows touches the session. *)
Lemma signin_safe r admin w :
  reverse (ViewName "admin:index") = Some admin ->
  url_has_allowed_host_and_scheme
    (unwrapped_next (requested_next settings r admin)) None = true ->
  exists evs,
    adds (signin settings r) w
      (ESessionSet "login_next_url"
         (unwrapped_next (requested_next settings r admin)) :: evs) /\
    session (snd (signin settings r w)) =
      <["login_next_url" := unwrapped_next (requested_next settings r admin)]>
        (session w).
Proof.
  intros Hadmin Hok. unfold adds. rewrite (signin_resolved r admin w Hadmin).
  cbv zeta. rewrite Hok. cbn [negb].
  set (target := unwrapped_next (requested_next settings r admin)).
  step (session_setitem_run "login_next_url" target w).
  step (session_get_run "saml_metadata_conf_url" _).
  step (session_get_run "saml_metadata_conf_raw" _).
  match goal with
  | |- context [bind (_get_saml_client settings ?d ?u ?rw) _ ?w0] =>
      destruct (_get_saml_client_frame settings d u rw w0) as [evs Hevs];
      destruct (_get_saml_client settings d u rw w0) as [[c|e] w1] eqn:Hc
  end; simpl in Hevs; subst w1.
  - step Hc. step (emit_run EPrepare _).
    unfold adds, bind, lift.
    destruct (prepare_for_authenticate c) as [e|p]; simpl;
      eexists; (split; [rewrite <- ?app_assoc; simpl; reflexivity|reflexivity]).
  - step_raise Hc. unfold adds. simpl.
    eexists; (split; [rewrite <- ?app_assoc; simpl; reflexivity|reflexivity]).
Qed.

(** C1.  When the redirect target that [signin] resolves is not allowed by
    the safety check, the handler leaves the world as it was (nothing is
    written to the session, [login_next_url] included), it returns a
    redirect to the denial page whenever that page reverses, and it returns
    no other response. *)
Theorem C1_unsafe_target_is_denied r admin w :
  reverse (ViewName "admin:index") = Some admin ->
  url_has_allowed_host_and_scheme
    (unwrapped_next (requested_next settings r admin)) None = false ->
  snd (signin settings r w) = w /\
  adds (signin settings r) w [] /\
  session (snd (signin settings r w)) !! "login_next_url"
    = session w !! "login_next_url" /\
  (forall page,
     first_reverse
       [ViewFn "denied"; ViewName "denied"; ViewName "django_saml2_auth:denied"]
       = Some page ->
     fst (signin settings r w) = Ret (HttpResponseRedirect (Some page))) /\
  (forall response,
     fst (signin settings r w) = Ret response ->
     exists page,
       first_reverse
         [ViewFn "denied"; ViewName "denied"; ViewName "django_saml2_auth:denied"]
         = Some page /\
       response = HttpResponseRedirect (Some page)).
Proof.
  intros Hadmin Hbad. unfold adds.
  rewrite (signin_unsafe r admin w Hadmin Hbad). cbn [fst snd].
  repeat split; try done.
  - by rewrite app_nil_r.
  - by intros page ->.
  - intros response. destruct (first_reverse _) as [page|]; [|discriminate].
    intros [= <-]. by exists page.
Qed.

(** C10.  [signin] unwraps a nested redirect before it validates and
    stores the target: with [target] the caller-supplied [next] value (or
    the default destination) in which, when its URL-decoded form contains
    [next=], the inner [next] query parameter has replaced the value (the
    original value staying on any parsing failure), the safety check is
    made on [target]: if it fails the handler answers with the denial page
    and changes nothing, and if it passes the first effect is to store
    [target] under [login_next_url], where it still is on return. *)
Theorem C10_signin_unwraps_nested_next r admin w :
  reverse (ViewName "admin:index") = Some admin ->
  let target := unwrapped_next (requested_next settings r admin) in
  (url_has_allowed_host_and_scheme target None = false ->
     signin settings r w =
       (match first_reverse
                [ViewFn "denied"; ViewName "denied"; ViewName "django_saml2_auth:denied"] with
        | Some url => Ret (HttpResponseRedirect (Some url))
        | None => Raise (ReverseIssue
                    [ViewFn "denied"; ViewName "denied";
                     ViewName "django_saml2_auth:denied"])
        end, w)) /\
  (url_has_allowed_host_and_scheme target None = true ->
     exists evs,
       adds (signin settings r) w (ESessionSet "login_next_url" target :: evs) /\
       session (snd (signin settings r w)) !! "login_next_url" = Some target).
Proof.
  intros Hadmin target. split.
  - intros Hbad. by apply (signin_unsafe r admin).
  - intros Hok. destruct (signin_safe r admin w Hadmin Hok) as (evs & Hevs & Hs).
    exists evs. split; [done|]. rewrite Hs. apply lookup_insert_eq.
Qed.

End Initiation.

(** ** The assertion consumer *)

Section Consumer.
Context `{E : Env}.
Variable settings : Settings.

Lemma _get_saml_client_Ret domain url raw w c :
  fst (_get_saml_client settings domain url raw w) = Ret c ->
  forall w', _get_saml_client settings domain url raw w' =
               (Ret c, add_trace w' [EClient (loaded (config c))]).
Proof.
  unfold _get_saml_client, bind. rewrite get_reverse_run. intros H w'.
  rewrite get_reverse_run. cbn [acs_objs] in *.
  destruct (first_reverse _); [|discriminate].
  rewrite !emit_run in *. unfold lift in *.
  destruct (Saml2Config_load _) as [e|[]]; [discriminate|].
  cbn in H. by injection H as <-.
Qed.

Lemma truthy_Some s : s <> "" -> truthy (Some s) = true.
Proof. intros H. simpl. by destruct (String.eqb_spec s ""). Qed.

Lemma first_value (identity : Identity) key v more w :
  identity !! key = Some (v :: more) ->
  (vs <- getitem identity key ;; getitem0 vs) w = (Ret v, w).
Proof. intros H. unfold bind, getitem. by rewrite H. Qed.

(** The lookup finds nobody when no stored email is the same up to case. *)
Lemma no_match mail (us : list User) :
  (forall u, u ∈ us -> lower (email u) <> lower mail) ->
  List.filter (fun u => iexact (email u) mail) us = [].
Proof.
  induction us as [|u us IH]; intros H; [done|]. simpl.
  unfold iexact at 1. destruct (String.eqb_spec (lower (email u)) (lower mail)) as [Heq|_].
  - exfalso. apply (H u); [left|done].
  - apply IH. intros u' Hu'. apply H. by right.
Qed.

(** C3.  When the session holds neither a metadata URL nor raw inline
    metadata (the keys are absent, or empty), [acs] reads the two keys,
    logs, and returns a redirect to the initiation endpoint: no client is
    built, the posted assertion is not parsed, nobody is logged in, and the
    session is as it was. *)
Theorem C3_no_flow_state_back_to_initiation r w login_url :
  truthy (session w !! "saml_metadata_conf_url") = false ->
  truthy (session w !! "saml_metadata_conf_raw") = false ->
  reverse (ViewName "sso_login") = Some login_url ->
  acs settings r w =
    (Ret (HttpResponseRedirect (Some login_url)),
     add_trace w [ESessionGet "saml_metadata_conf_url";
                  ESessionGet "saml_metadata_conf_raw";
                  ELog INFO "No saml_metadata_conf found"]) /\
  (forall evs, adds (acs settings r) w evs ->
     (forall payload, EParse payload ∉ evs) /\
     (forall c, EClient c ∉ evs) /\
     (forall id, ELogin id ∉ evs)) /\
  session (snd (acs settings r w)) = session w /\
  auth (snd (acs settings r w)) = auth w.
Proof.
  intros Hurl Hraw Hlogin.
  assert (Hrun : acs settings r w =
    (Ret (HttpResponseRedirect (Some login_url)),
     add_trace w [ESessionGet "saml_metadata_conf_url";
                  ESessionGet "saml_metadata_conf_raw";
                  ELog INFO "No saml_metadata_conf found"])).
  { assert (Hsso : forall w0, get_reverse (One (ViewName "sso_login")) w0
                                = (Ret login_url, w0)).
    { intros w0. apply get_reverse_Some. by rewrite first_reverse_One. }
    unfold acs.
    step (session_get_run "saml_metadata_conf_url" _).
    step (session_get_run "saml_metadata_conf_raw" _).
    cbn [add_trace session]. rewrite Hurl, Hraw. cbn [negb andb].
    unfold logger. step (emit_run _ _).
    step (Hsso _).
    unfold ret, add_trace. cbn [session auth users group_table trace].
    by rewrite <- !app_assoc. }
  unfold adds. rewrite Hrun. cbn [fst snd add_trace session auth trace].
  split; [done|]. split; [|done].
  intros evs Hevs. apply app_inv_head in Hevs. subst evs.
  repeat split; intros ? Hin; in_events.
Qed.

Section Validated.
Variables (r : Request) (w : World) (client : Saml2Client).
Variables (admin payload : string) (identity : Identity).
Hypothesis Hv : validated settings r w client admin payload identity.

(** [acs] up to the extraction of the attributes. *)
Lemma acs_validated :
  acs settings r w =
    (user_email <- (vs <- getitem identity (attribute_name settings "email" "Email") ;;
                    getitem0 vs) ;;
     user_name <- (vs <- getitem identity (attribute_name settings "username" "UserName") ;;
                   getitem0 vs) ;;
     user_first_name <- (vs <- getitem identity
                                 (attribute_name settings "first_name" "FirstName") ;;
                         getitem0 vs) ;;
     user_last_name <- (vs <- getitem identity
                                (attribute_name settings "last_name" "LastName") ;;
                        getitem0 vs) ;;
     found <- try_except
       (target_user <- User_objects_get user_email ;;
        (if truthy (default ∅ (TRIGGER settings) !! "BEFORE_LOGIN")
         then
           let path := default "" (default ∅ (TRIGGER settings) !! "BEFORE_LOGIN") in
           hook <- lift (import_string path) ;;
           emit (EHook path) ;;;
           lift (hook identity)
         else ret tt) ;;;
        ret (inl target_user))
       handles_DoesNotExist
       (logger WARNING ("SSO user was not found: " ++ user_email) ;;;
        ret (inr (HttpResponseRedirect (Some "/login/?sso_login_no_user=true")))) ;;
     match found with
     | inr response => ret response
     | inl target_user =>
         session_flush ;;;
         if is_active target_user
         then
           login (with_backend target_user "django.contrib.auth.backends.ModelBackend") ;;;
           ret (HttpResponseRedirect (Some (default (default admin (DEFAULT_NEXT_URL settings))
                             (session w !! "login_next_url"))))
         else
           url <- get_reverse denied_objs ;;
           ret (HttpResponseRedirect (Some url))
     end)
    (add_trace w (validation_events client payload)).
Proof.
  destruct Hv as (Hflow & Hclient & Hadmin & Hpost & Hne & response & Hparse & Hid).
  assert (Hadm : forall w0, get_reverse (One (ViewName "admin:index")) w0 = (Ret admin, w0)).
  { intros w0. apply get_reverse_Some. by rewrite first_reverse_One. }
  assert (Hno : negb (truthy (session w !! "saml_metadata_conf_url"))
                && negb (truthy (session w !! "saml_metadata_conf_raw")) = false).
  { unfold has_flow_state in Hflow.
    by destruct (truthy (session w !! "saml_metadata_conf_url")),
                (truthy (session w !! "saml_metadata_conf_raw")). }
  unfold acs.
  step (session_get_run "saml_metadata_conf_url" _).
  step (session_get_run "saml_metadata_conf_raw" _).
  cbn [add_trace session]. rewrite Hno.
  step (_get_saml_client_Ret _ _ _ _ _ Hclient _).
  step (Hadm _).
  step (session_get_default_run "login_next_url" _ _).
  rewrite Hpost, (truthy_Some payload Hne). cbn [negb].
  step (emit_run (EParse _) _).
  cbn [default from_option id]. rewrite Hparse. cbn [lift].
  step (eq_refl : ret (Some response) _ = (Ret (Some response), _)).
  rewrite Hid, !add_trace_app. reflexivity.
Qed.

(** C7.  When the identity of a validated assertion lacks one of the
    attributes that the configured mapping names, [acs] raises a lookup
    error ([KeyError], or [IndexError] for an empty value list met
    first): it returns no response, hence no redirect to the denial page,
    and does nothing after the parsing.  When the four attributes are
    present, the first value of each list is taken: the user is looked up
    by the first value of the email attribute. *)
Theorem C7_missing_attribute_is_fatal :
  (lacks_attribute settings identity ->
     exists e,
       acs settings r w =
         (Raise e, add_trace w (validation_events client payload)) /\
       is_lookup_error e = true) /\
  (forall mail uname first last,
     has_attributes settings identity mail uname first last ->
     exists evs,
       adds (acs settings r) w
         (validation_events client payload ++ EUserLookup mail :: evs)
       /\ forall other, EUserLookup other ∉ evs).
Proof.
  split.
  - intros Hlack. rewrite acs_validated. unfold lacks_attribute in Hlack.
    unfold_run.
    destruct (identity !! attribute_name settings "email" "Email")
      as [[|? ?]|]; [by eexists..| |by eexists].
    destruct (identity !! attribute_name settings "username" "UserName")
      as [[|? ?]|]; [by eexists..| |by eexists].
    destruct (identity !! attribute_name settings "first_name" "FirstName")
      as [[|? ?]|]; [by eexists..| |by eexists].
    destruct (identity !! attribute_name settings "last_name" "LastName")
      as [[|? ?]|]; [by eexists..| |by eexists].
    exfalso. by destruct Hlack as [?|[?|[?|?]]].
  - intros mail uname first last ([m1 H1] & [m2 H2] & [m3 H3] & [m4 H4]).
    unfold adds. rewrite acs_validated.
    step (first_value _ _ _ _ _ H1). step (first_value _ _ _ _ _ H2).
    step (first_value _ _ _ _ _ H3). step (first_value _ _ _ _ _ H4).
    unfold_run. split_run;
      cbn [add_trace trace]; rewrite <- ?app_assoc; cbn [app];
      (eexists; split; [reflexivity|]); intros other Hin; in_events.
Qed.

(** C5.  When a validated assertion carries the four attributes and no
    local user has the asserted email up to letter case, [acs] does, after
    the validation, exactly two things: it looks the email up and it logs
    it in a warning.  It returns a redirect to
    [/login/?sso_login_no_user=true]; no user is created and no session is
    established, the user table and the session being as they were. *)
Theorem C5_unmatched_email_is_turned_away mail uname first last :
  has_attributes settings identity mail uname first last ->
  (forall u, u ∈ users w -> lower (email u) <> lower mail) ->
  acs settings r w =
    (Ret (HttpResponseRedirect (Some "/login/?sso_login_no_user=true")),
     add_trace w (validation_events client payload ++
                  [EUserLookup mail;
                   ELog WARNING ("SSO user was not found: " ++ mail)])) /\
  users (snd (acs settings r w)) = users w /\
  auth (snd (acs settings r w)) = auth w /\
  session (snd (acs settings r w)) = session w.
Proof.
  intros ([m1 H1] & [m2 H2] & [m3 H3] & [m4 H4]) Hnone.
  assert (Hrun : acs settings r w =
    (Ret (HttpResponseRedirect (Some "/login/?sso_login_no_user=true")),
     add_trace w (validation_events client payload ++
                  [EUserLookup mail;
                   ELog WARNING ("SSO user was not found: " ++ mail)]))).
  { rewrite acs_validated.
    step (first_value _ _ _ _ _ H1). step (first_value _ _ _ _ _ H2).
    step (first_value _ _ _ _ _ H3). step (first_value _ _ _ _ _ H4).
    unfold_run. cbn [add_trace users]. rewrite (no_match mail _ Hnone).
    unfold_run. unfold add_trace. cbn [session auth users group_table trace].
    by rewrite <- !app_assoc. }
  by rewrite Hrun.
Qed.

(** [acs] when nobody has the asserted email. *)
Lemma acs_unmatched mail uname first last :
  has_attributes settings identity mail uname first last ->
  (forall u, u ∈ users w -> lower (email u) <> lower mail) ->
  acs settings r w =
    (Ret (HttpResponseRedirect (Some "/login/?sso_login_no_user=true")),
     add_trace w (validation_events client payload ++
                  [EUserLookup mail;
                   ELog WARNING ("SSO user was not found: " ++ mail)])).
Proof.
  intros ([m1 H1] & [m2 H2] & [m3 H3] & [m4 H4]) Hnone.
  rewrite acs_validated.
  step (first_value _ _ _ _ _ H1). step (first_value _ _ _ _ _ H2).
  step (first_value _ _ _ _ _ H3). step (first_value _ _ _ _ _ H4).
  unfold_run. cbn [add_trace users]. rewrite (no_match mail _ Hnone).
  unfold_run. unfold add_trace. cbn [session auth users group_table trace].
  by rewrite <- !app_assoc.
Qed.

(** C4, as the code has it.  [acs] has no provisioning path.  When a
    validated assertion carries the four attributes and no local user has
    the asserted email up to letter case, then, whatever the configuration
    says about provisioning ([CREATE_USER], [NEW_USER_PROFILE] and
    [TRIGGER] are settings like the others), the run creates no user, saves
    none and calls no hook: the user table is as it was, and the response is
    the redirect to [/login/?sso_login_no_user=true]. *)
Theorem C4_unmatched_email_is_never_provisioned mail uname first last :
  has_attributes settings identity mail uname first last ->
  (forall u, u ∈ users w -> lower (email u) <> lower mail) ->
  exists evs,
    adds (acs settings r) w evs /\
    (forall name address, EUserCreate name address ∉ evs) /\
    (forall id, EUserSave id ∉ evs) /\
    (forall path, EHook path ∉ evs) /\
    users (snd (acs settings r w)) = users w /\
    fst (acs settings r w)
      = Ret (HttpResponseRedirect (Some "/login/?sso_login_no_user=true")).
Proof.
  intros Hattrs Hnone. unfold adds.
  rewrite (acs_unmatched mail uname first last Hattrs Hnone).
  cbn [fst snd add_trace trace users].
  eexists. split; [reflexivity|].
  unfold validation_events.
  repeat split; intros; intros Hin; cbn [app] in Hin; in_events.
Qed.

(** [acs] once the lookup has found the user [u] and the hook has
    returned. *)
Lemma acs_resolved mail uname first last u :
  has_attributes settings identity mail uname first last ->
  List.filter (fun v => iexact (email v) mail) (users w) = [u] ->
  before_login_returns settings identity ->
  acs settings r w =
    (if is_active u then Ret (HttpResponseRedirect (Some (default (default admin (DEFAULT_NEXT_URL settings))
                             (session w !! "login_next_url"))))
     else match first_reverse
                  [ViewFn "denied"; ViewName "denied";
                   ViewName "django_saml2_auth:denied"] with
          | Some url => Ret (HttpResponseRedirect (Some url))
          | None => Raise (ReverseIssue
                      [ViewFn "denied"; ViewName "denied";
                       ViewName "django_saml2_auth:denied"])
          end,
     {| session := ∅;
        auth := if is_active u then Some (pk u) else None;
        users := users w; group_table := group_table w;
        trace := trace w ++ validation_events client payload ++
                 [EUserLookup mail] ++ hook_events settings ++
                 ESessionFlush :: (if is_active u then [ELogin (pk u)] else []) |}).
Proof.
  intros ([m1 H1] & [m2 H2] & [m3 H3] & [m4 H4]) Hu Hhook.
  rewrite acs_validated.
  step (first_value _ _ _ _ _ H1). step (first_value _ _ _ _ _ H2).
  step (first_value _ _ _ _ _ H3). step (first_value _ _ _ _ _ H4).
  unfold_run. cbn [add_trace users]. rewrite Hu.
  unfold before_login_returns in Hhook. unfold hook_events.
  destruct (default ∅ (TRIGGER settings) !! "BEFORE_LOGIN") as [path|];
    cbn [truthy default from_option id].
  - destruct (String.eqb_spec path "") as [->|Hne]; cbn [negb].
    + unfold_run. cbn [denied_objs].
      destruct (is_active u); [|destruct (first_reverse _)];
        finish_run.
    + destruct (Hhook path eq_refl Hne) as (hook & -> & Hret).
      unfold_run. rewrite Hret. unfold_run. cbn [denied_objs].
      destruct (is_active u); [|destruct (first_reverse _)];
        finish_run.
  - unfold_run. cbn [denied_objs].
    destruct (is_active u); [|destruct (first_reverse _)];
      finish_run.
Qed.

(** C2, as the code has it.  When [acs] has read flow state and goes on
    to resolve a local user (the assertion is validated, the four
    attributes are present, exactly one user has the asserted email up to
    case, and the [BEFORE_LOGIN] hook, if any, returns), the session is
    flushed before the handler returns, after the flow state was read:
    the session is empty on return, whether the invocation ends in
    success (the user is active and the response is the redirect to the
    target read before) or in denial (the user is inactive). *)
Theorem C2_resolved_user_flushes_session mail uname first last u :
  has_attributes settings identity mail uname first last ->
  List.filter (fun v => iexact (email v) mail) (users w) = [u] ->
  before_login_returns settings identity ->
  (exists before after,
     adds (acs settings r) w (before ++ ESessionFlush :: after) /\
     ESessionGet "saml_metadata_conf_url" ∈ before /\
     ESessionGet "saml_metadata_conf_raw" ∈ before /\
     ESessionGet "login_next_url" ∈ before) /\
  session (snd (acs settings r w)) = ∅ /\
  (is_active u = true ->
     fst (acs settings r w) =
       Ret (HttpResponseRedirect
              (Some (default (default admin (DEFAULT_NEXT_URL settings))
                             (session w !! "login_next_url")))) /\
     auth (snd (acs settings r w)) = Some (pk u)) /\
  (is_active u = false ->
     auth (snd (acs settings r w)) = None /\
     forall page,
       first_reverse
         [ViewFn "denied"; ViewName "denied"; ViewName "django_saml2_auth:denied"]
         = Some page ->
       fst (acs settings r w) = Ret (HttpResponseRedirect (Some page))).
Proof.
  intros Hattrs Hu Hhook. unfold adds.
  rewrite (acs_resolved mail uname first last u Hattrs Hu Hhook).
  cbn [fst snd session auth trace].
  split; [|split; [done|split]].
  - exists (validation_events client payload ++ [EUserLookup mail]
            ++ hook_events settings)%list,
           (if is_active u then [ELogin (pk u)] else []).
    split; [by rewrite <- !app_assoc|].
    unfold validation_events. set_solver.
  - by intros ->.
  - intros Hina. rewrite Hina. split; [done|]. by intros page ->.
Qed.

End Validated.

(** C6.  In every run of [acs] that logs a user in, the session
    operations are sequenced: the events of the run end with the flush
    followed by the login, and the reads of the flow state (the metadata
    URL, the raw metadata and the post-login target) all come before the
    flush; there is no other flush or login, and the response is a
    redirect. *)
Theorem C6_session_operations_are_sequenced r w :
  exists evs,
    adds (acs settings r) w evs /\
    forall id, ELogin id ∈ evs ->
      (exists before,
         evs = (before ++ [ESessionFlush; ELogin id])%list /\
         ESessionGet "saml_metadata_conf_url" ∈ before /\
         ESessionGet "saml_metadata_conf_raw" ∈ before /\
         ESessionGet "login_next_url" ∈ before /\
         (ESessionFlush ∉ before) /\
         (forall other, ELogin other ∉ before)) /\
      exists target,
        fst (acs settings r w) = Ret (HttpResponseRedirect (Some target)).
Proof.
  unfold adds, acs, _get_saml_client. unfold_run. split_run;
    cbn [add_trace trace pk with_backend]; rewrite <- ?app_assoc; cbn [app];
    (eexists; split; [reflexivity|]); intros id Hin; in_events.
  all: injection Hin as <-; (split; [|by eexists]).
  all: match goal with
       | |- exists before, ?l = _ /\ _ => exists (removelast (removelast l))
       end.
  all: split; [reflexivity|]; cbn [removelast].
  all: repeat split;
         try (by repeat constructor); intros; intros Hin; in_events.
Qed.

(** ** Provisioning *)

Lemma for_each_groups names w :
  (forall g, g ∈ names -> g ∈ group_table w) ->
  for_each Group_objects_get names w = (Ret names, w).
Proof.
  induction names as [|g names IH]; intros Hall; [done|].
  cbn [for_each]. unfold bind at 1, Group_objects_get at 1, bind at 1, get_world.
  assert (Hg : existsb (String.eqb g) (group_table w) = true).
  { apply existsb_exists. exists g. split.
    - apply list_elem_of_In, Hall. by left.
    - apply String.eqb_refl. }
  rewrite Hg. unfold ret at 1. unfold bind.
  rewrite IH; [done|]. intros g' Hg'. apply Hall. by right.
Qed.

Lemma pk_below_fresh (us : list User) v : v ∈ us -> pk v < fresh_pk us.
Proof.
  unfold fresh_pk. induction us as [|u us IH]; intros Hv.
  - by apply elem_of_nil in Hv.
  - apply elem_of_cons in Hv as [->|Hv]; simpl; [lia|].
    specialize (IH Hv). lia.
Qed.

Lemma update_row (us : list User) (row : User) (f : User -> User) :
  pk row = fresh_pk us ->
  map (fun v => if Nat.eqb (pk v) (fresh_pk us) then f v else v) (us ++ [row])
    = (us ++ [f row])%list.
Proof.
  intros Hrow. rewrite map_app. f_equal.
  - rewrite <- (map_id us) at 2. apply map_ext_in. intros v Hv.
    apply list_elem_of_In, pk_below_fresh in Hv.
    destruct (Nat.eqb_spec (pk v) (fresh_pk us)); [lia|done].
  - simpl. by rewrite Hrow, Nat.eqb_refl.
Qed.

Variable normalize_username : string -> string.

Lemma fresh_username uname (us : list User) :
  (forall u, u ∈ us -> username u <> uname) ->
  existsb (fun u => String.eqb (username u) uname) us = false.
Proof.
  intros Hfresh. apply not_true_is_false. intros Hex.
  apply existsb_exists in Hex as (u & Hu & Heq).
  apply String.eqb_eq in Heq. apply (Hfresh u); [|done].
  by apply list_elem_of_In.
Qed.

(** What [_create_new_user] does when the username is not empty, its
    normal form is free and the configured groups exist. *)
Lemma _create_new_user_run uname mail firstname lastname w :
  uname <> "" ->
  (forall u, u ∈ users w -> username u <> normalize_username uname) ->
  (forall g, g ∈ default [] (USER_GROUPS (new_user_profile settings)) ->
             g ∈ group_table w) ->
  let user :=
    {| pk := fresh_pk (users w); username := normalize_username uname;
       email := normalize_email mail;
       first_name := firstname; last_name := lastname;
       is_active := default true (ACTIVE_STATUS (new_user_profile settings));
       is_staff := default true (STAFF_STATUS (new_user_profile settings));
       is_superuser := default false (SUPERUSER_STATUS (new_user_profile settings));
       groups := remove_dups (default [] (USER_GROUPS (new_user_profile settings)));
       backend := None |} in
  _create_new_user settings normalize_username uname mail firstname lastname w =
    (Ret user,
     {| session := session w; auth := auth w;
        users := users w ++ [user]; group_table := group_table w;
        trace := trace w ++ [EUserCreate uname mail; EUserSave (pk user)] |}).
Proof.
  intros Hne Hfresh Hgroups user.
  unfold _create_new_user, create_user.
  unfold bind at 1 2, emit at 1.
  destruct (String.eqb_spec uname "") as [?|_]; [contradiction|].
  unfold bind at 1, get_world at 1.
  cbn [users]. rewrite (fresh_username _ _ Hfresh).
  unfold bind at 1, set_users at 1, ret at 1.
  unfold bind at 1. rewrite for_each_groups by done.
  unfold groups_set, save.
  cbv beta iota zeta delta [bind ret emit get_world set_users].
  cbn [fst snd session auth users group_table trace pk with_names with_groups with_flags].
  rewrite (update_row (users w) _ (fun v => with_groups v _)) by done.
  cbn [with_groups pk username email first_name last_name is_active is_staff
       is_superuser groups backend].
  rewrite (update_row (users w) _ (fun _ => user)) by done.
  subst user. cbn [pk]. by rewrite <- app_assoc.
Qed.

End Consumer.

(** ** Every run of the consumer *)

Section EveryRun.
Context `{E : Env}.
Variable settings : Settings.

Lemma filter_head {A} (f : A -> bool) (l : list A) x rest :
  List.filter f l = x :: rest -> x ∈ l /\ f x = true.
Proof.
  intros H. assert (Hin : In x (List.filter f l)) by (rewrite H; by left).
  apply filter_In in Hin as [Hin Hf]. split; [by apply list_elem_of_In|done].
Qed.

Lemma acs_every_run r w :
  exists evs,
    adds (acs settings r) w evs /\
    users (snd (acs settings r w)) = users w /\
    group_table (snd (acs settings r w)) = group_table w /\
    (forall key value, ESessionSet key value ∉ evs) /\
    (forall s, EClient s ∈ evs -> built_for settings r w s) /\
    (forall response, fst (acs settings r w) = Ret response ->
                      acs_response settings w response) /\
    (((ESessionFlush ∉ evs) /\
      session (snd (acs settings r w)) = session w /\
      auth (snd (acs settings r w)) = auth w /\
      forall id, ELogin id ∉ evs) \/
     (ESessionFlush ∈ evs /\
      session (snd (acs settings r w)) = ∅ /\
      ((auth (snd (acs settings r w)) = None /\ forall id, ELogin id ∉ evs) \/
       exists u mail,
         auth (snd (acs settings r w)) = Some (pk u) /\
         (forall id, ELogin id ∈ evs <-> id = pk u) /\
         u ∈ users w /\ is_active u = true /\
         EUserLookup mail ∈ evs /\ iexact (email u) mail = true))).
Proof.
  unfold adds, acs, _get_saml_client, denied_objs, acs_objs. unfold_run. split_run;
    cbn [add_trace trace users group_table session auth pk with_backend];
    rewrite <- ?app_assoc; cbn [app];
    (eexists; split; [reflexivity|]);
    (split; [reflexivity|]); (split; [reflexivity|]);
    (split; [intros ? ? Hin; in_events|]).
  all: (split; [intros ? Hin; in_events;
                 try (injection Hin as ->; intros w0;
                      unfold adds, _get_saml_client, acs_objs; unfold_run; use_eqns;
                      destruct (Saml2Config_load _) as [?|[]];
                      cbn [fst snd trace add_trace]; reflexivity)|]).
  all: repeat match goal with
         | H : first_reverse [_] = _ |- _ => rewrite first_reverse_One in H
         end.
  all: (split; [intros response Hresp; try discriminate Hresp;
                injection Hresp as <-; unfold acs_response;
                first [ left; eexists; split; [eassumption|reflexivity]
                      | right; left; eexists; split; [eassumption|reflexivity]
                      | right; right; left; reflexivity
                      | right; right; right; eexists; split; [eassumption|reflexivity] ]|]).
  all: first
    [ left; split; [intros Hin; in_events|];
      split; [reflexivity|]; split; [reflexivity|]; intros ? Hin; in_events
    | right; split; [by repeat constructor|]; split; [reflexivity|];
      first
        [ left; split; [reflexivity|]; intros ? Hin; in_events
        | right;
          match goal with
          | H : List.filter _ _ = ?u :: _ |- _ =>
              destruct (filter_head _ _ _ _ H) as [Hmem Hmatch]; exists u
          end;
          eexists; split; [reflexivity|];
          split; [intros id; split;
                  [intros Hin; in_events; by injection Hin
                  |intros ->; by repeat constructor]|];
          split; [exact Hmem|]; split; [assumption|];
          split; [by repeat constructor|exact Hmatch] ] ].
Qed.

Lemma signin_every_run r w :
  exists evs,
    adds (signin settings r) w evs /\
    users (snd (signin settings r w)) = users w /\
    group_table (snd (signin settings r w)) = group_table w /\
    auth (snd (signin settings r w)) = auth w /\
    (forall s, EClient s ∈ evs -> built_for settings r w s) /\
    (forall response, fst (signin settings r w) = Ret response ->
       exists target, response = HttpResponseRedirect target) /\
    (forall e, e ∈ evs ->
       match e with
       | ESessionSet key value =>
           key = "login_next_url" /\
           url_has_allowed_host_and_scheme value None = true /\
           session (snd (signin settings r w)) = <[key := value]> (session w)
       | ESessionGet _ | EClient _ | EPrepare => True
       | _ => False
       end) /\
    ((forall key value, ESessionSet key value ∉ evs) ->
       session (snd (signin settings r w)) = session w) /\
    (forall key, key <> "login_next_url" ->
       session (snd (signin settings r w)) !! key = session w !! key).
Proof.
  unfold adds, signin, _get_saml_client, denied_objs, acs_objs. unfold_run. split_run;
    cbn [add_trace trace users group_table session auth];
    rewrite <- ?app_assoc; cbn [app];
    (eexists; split; [first [reflexivity|symmetry; apply app_nil_r]|]);
    (split; [reflexivity|]); (split; [reflexivity|]); (split; [reflexivity|]).
  all: rewrite ?lookup_insert_ne in * by done.
  all: (split; [intros ? Hin; in_events;
                 try (injection Hin as ->; intros w0;
                      unfold adds, _get_saml_client, acs_objs; unfold_run; use_eqns;
                      destruct (Saml2Config_load _) as [?|[]];
                      cbn [fst snd trace add_trace]; reflexivity)|]).
  all: (split; [intros response Hresp; try discriminate Hresp;
                injection Hresp as <-; by eexists|]).
  all: (split; [intros ev Hin; in_events; subst ev;
                first [done
                      |split; [done|]; split; [|done];
                       match goal with
                       | H : negb ?b = false |- ?b = true => by destruct b
                       end]|]).
  all: (split; [intros Hno; first [reflexivity|exfalso; eapply Hno; by left]|]).
  all: intros key Hkey; first [reflexivity|by apply lookup_insert_ne].
Qed.

End EveryRun.

(** ** Reversing, and the client *)

Section Routes.
Context `{E : Env}.
Variable settings : Settings.

Lemma first_reverse_Some (objs : list viewref) url :
  first_reverse objs = Some url <->
  exists before obj after,
    objs = (before ++ obj :: after)%list /\ reverse obj = Some url /\
    forall o, o ∈ before -> reverse o = None.
Proof.
  induction objs as [|o objs IH]; simpl.
  - split; [discriminate|]. intros (before & obj & after & Habs & _).
    by destruct before.
  - destruct (reverse o) as [u|] eqn:Ho.
    + split.
      * intros [= <-]. exists [], o, objs. repeat split; [done|].
        intros o' Hin. by apply elem_of_nil in Hin.
      * intros ([|b before] & obj & after & Heq & Hobj & Hbefore).
        -- injection Heq as <- _. congruence.
        -- injection Heq as <- _. rewrite (Hbefore o) in Ho; [discriminate|by left].
    + rewrite IH. split.
      * intros (before & obj & after & -> & Hobj & Hbefore).
        exists (o :: before), obj, after. repeat split; [done|].
        intros o' Hin. apply elem_of_cons in Hin as [->|Hin]; [done|by apply Hbefore].
      * intros ([|b before] & obj & after & Heq & Hobj & Hbefore).
        -- injection Heq as <- _. congruence.
        -- injection Heq as <- ->. exists before, obj, after. repeat split; [done|].
           intros o' Hin. apply Hbefore. by right.
Qed.

Lemma first_reverse_None (objs : list viewref) :
  first_reverse objs = None <-> forall o, o ∈ objs -> reverse o = None.
Proof.
  induction objs as [|o objs IH]; simpl.
  - split; [|done]. intros _ o Hin. by apply elem_of_nil in Hin.
  - destruct (reverse o) as [u|] eqn:Ho.
    + split; [discriminate|]. intros H. rewrite (H o) in Ho; [discriminate|by left].
    + rewrite IH. split.
      * intros H o' Hin. apply elem_of_cons in Hin as [->|Hin]; [done|by apply H].
      * intros H o' Hin. apply H. by right.
Qed.

(** X1.  [get_reverse] answers with the reversal of the first object of its
    argument that reverses, the earlier ones having failed; it raises, with
    the whole list in the exception, exactly when no object reverses; it has
    no effect. *)
Theorem get_reverse_first_match (objs : reverse_arg) (w : World) :
  snd (get_reverse objs w) = w /\
  (forall url,
     fst (get_reverse objs w) = Ret url <->
     exists before obj after,
       match objs with One obj => [obj] | Many l => l end
         = (before ++ obj :: after)%list /\
       reverse obj = Some url /\
       forall o, o ∈ before -> reverse o = None) /\
  (forall e,
     fst (get_reverse objs w) = Raise e <->
     e = ReverseIssue (match objs with One obj => [obj] | Many l => l end) /\
     forall o, o ∈ match objs with One obj => [obj] | Many l => l end ->
               reverse o = None).
Proof.
  rewrite get_reverse_run. cbn [fst snd]. split; [done|].
  set (candidates := match objs with One obj => [obj] | Many l => l end).
  split.
  - intros url. rewrite <- first_reverse_Some.
    destruct (first_reverse candidates); split; congruence.
  - intros e. rewrite <- first_reverse_None.
    destruct (first_reverse candidates); split; try congruence.
    + by intros [_ ?].
    + intros [= <-]. done.
    + by intros [-> _].
Qed.

(** X2.  [_get_saml_client] reads [METADATA_INLINE] and [NAME_ID_FORMAT] and
    no other setting: two configurations that agree on these give the same
    run.  In particular the metadata of the client is never a local file,
    also where [_get_metadata] would answer with the configured
    [METADATA_LOCAL_FILE_PATH]. *)
Theorem _get_saml_client_reads_two_settings domain url raw w :
  (forall settings',
     METADATA_INLINE settings' = METADATA_INLINE settings ->
     NAME_ID_FORMAT settings' = NAME_ID_FORMAT settings ->
     _get_saml_client settings' domain url raw w
       = _get_saml_client settings domain url raw w) /\
  (forall c paths,
     fst (_get_saml_client settings domain url raw w) = Ret c ->
     metadata (loaded (config c)) <> MdLocal paths) /\
  (forall path,
     METADATA_INLINE settings = None ->
     METADATA_LOCAL_FILE_PATH settings = Some path ->
     _get_metadata settings w = (Ret (MdLocal [path]), w)).
Proof.
  split; [|split].
  - intros settings' Hin Hfmt. unfold _get_saml_client. by rewrite Hin, Hfmt.
  - intros c paths Hc.
    destruct (first_reverse
                [ViewFn "acs"; ViewName "acs"; ViewName "django_saml2_auth:acs"])
      as [path|] eqn:Hp.
    + destruct (_get_saml_client_run settings domain url raw path w Hp)
        as (s & Hrun & Hmd & _).
      rewrite Hrun in Hc. cbn [fst] in Hc.
      destruct (Saml2Config_load s); [discriminate|].
      injection Hc as <-. cbn [config loaded]. rewrite Hmd.
      destruct (truthy raw); [done|]. by destruct (METADATA_INLINE settings).
    + unfold _get_saml_client in Hc.
      rewrite (bind_Raise _ _ w (ReverseIssue
                 [ViewFn "acs"; ViewName "acs"; ViewName "django_saml2_auth:acs"]) w)
        in Hc; [discriminate|].
      rewrite get_reverse_run. cbn [acs_objs]. by rewrite Hp.
  - intros path Hin Hlocal. unfold _get_metadata. by rewrite Hin, Hlocal.
Qed.

(** X3.  The outcomes of [_get_saml_client]: when the consumer endpoint does not
    reverse it raises before pysaml2 is handed anything; an exception of
    pysaml2 while loading the settings is passed on; and the client that is
    returned tolerates unknown attributes and has the configured name-ID
    format. *)
Theorem _get_saml_client_outcomes domain url raw w :
  (first_reverse [ViewFn "acs"; ViewName "acs"; ViewName "django_saml2_auth:acs"]
     = None ->
   _get_saml_client settings domain url raw w =
     (Raise (ReverseIssue
               [ViewFn "acs"; ViewName "acs"; ViewName "django_saml2_auth:acs"]), w)) /\
  (forall c, fst (_get_saml_client settings domain url raw w) = Ret c ->
     allow_unknown_attributes (config c) = true /\
     name_id_format (service_sp (loaded (config c))) = NAME_ID_FORMAT settings /\
     Saml2Config_load (loaded (config c)) = inr tt) /\
  (forall e, fst (_get_saml_client settings domain url raw w) = Raise e ->
     e = ReverseIssue [ViewFn "acs"; ViewName "acs"; ViewName "django_saml2_auth:acs"]
     \/ exists s, adds (_get_saml_client settings domain url raw) w [EClient s] /\
                  Saml2Config_load s = inl e).
Proof.
  destruct (first_reverse
              [ViewFn "acs"; ViewName "acs"; ViewName "django_saml2_auth:acs"])
    as [path|] eqn:Hp.
  - destruct (_get_saml_client_run settings domain url raw path w Hp)
      as (s & Hrun & _ & _ & Hsp).
    unfold adds. rewrite Hrun. cbn [fst snd]. split; [discriminate|]. split.
    + intros c Hc. destruct (Saml2Config_load s) as [e|[]] eqn:Hload; [discriminate|].
      injection Hc as <-. cbn [config loaded allow_unknown_attributes].
      by rewrite Hsp.
    + intros e He. destruct (Saml2Config_load s) as [e'|] eqn:Hload; [|discriminate].
      injection He as <-. right. by exists s.
  - assert (Hrun : _get_saml_client settings domain url raw w =
      (Raise (ReverseIssue
                [ViewFn "acs"; ViewName "acs"; ViewName "django_saml2_auth:acs"]), w)).
    { unfold _get_saml_client. apply bind_Raise.
      rewrite get_reverse_run. cbn [acs_objs]. by rewrite Hp. }
    rewrite Hrun. cbn [fst]. split; [done|]. split; [discriminate|].
    intros e [= <-]. by left.
Qed.

End Routes.

(** ** More on the consumer *)

Section ConsumerRuns.
Context `{E : Env}.
Variable settings : Settings.

Lemma flow_test w :
  has_flow_state w ->
  negb (truthy (session w !! "saml_metadata_conf_url"))
    && negb (truthy (session w !! "saml_metadata_conf_raw")) = false.
Proof.
  unfold has_flow_state.
  by destruct (truthy (session w !! "saml_metadata_conf_url")),
              (truthy (session w !! "saml_metadata_conf_raw")).
Qed.

Lemma reverse_run name url w :
  reverse (ViewName name) = Some url ->
  get_reverse (One (ViewName name)) w = (Ret url, w).
Proof. intros H. apply get_reverse_Some. by rewrite first_reverse_One. Qed.

Lemma reverse_fails name w :
  reverse (ViewName name) = None ->
  get_reverse (One (ViewName name)) w = (Raise (ReverseIssue [ViewName name]), w).
Proof. intros H. by rewrite get_reverse_run, first_reverse_One, H. Qed.

Lemma denied_run page w :
  first_reverse [ViewFn "denied"; ViewName "denied"; ViewName "django_saml2_auth:denied"]
    = Some page ->
  (url <- get_reverse denied_objs ;; ret (HttpResponseRedirect (Some url))) w
    = (Ret (HttpResponseRedirect (Some page)), w).
Proof. intros H. by rewrite (bind_Ret _ _ w page w) by (by apply get_reverse_Some). Qed.

(** [acs] without flow state. *)
Lemma acs_no_flow r w login_url :
  truthy (session w !! "saml_metadata_conf_url") = false ->
  truthy (session w !! "saml_metadata_conf_raw") = false ->
  reverse (ViewName "sso_login") = Some login_url ->
  acs settings r w =
    (Ret (HttpResponseRedirect (Some login_url)),
     add_trace w [ESessionGet "saml_metadata_conf_url";
                  ESessionGet "saml_metadata_conf_raw";
                  ELog INFO "No saml_metadata_conf found"]).
Proof.
  intros Hurl Hraw Hlogin. unfold acs.
  step (session_get_run "saml_metadata_conf_url" _).
  step (session_get_run "saml_metadata_conf_raw" _).
  cbn [add_trace session]. rewrite Hurl, Hraw. cbn [negb andb].
  unfold logger. step (emit_run _ _).
  step (reverse_run _ _ _ Hlogin).
  unfold ret, add_trace. cbn [session auth users group_table trace].
  by rewrite <- !app_assoc.
Qed.

(** The first steps of [acs] when there is flow state and the client is
    built. *)
Ltac acs_start Hflow Hclient :=
  unfold acs;
  step (session_get_run "saml_metadata_conf_url" _);
  step (session_get_run "saml_metadata_conf_raw" _);
  cbn [add_trace session]; rewrite (flow_test _ Hflow);
  step (_get_saml_client_Ret _ _ _ _ _ _ Hclient _).

Section Started.
Variables (r : Request) (w : World) (client : Saml2Client).
Hypothesis Hflow : has_flow_state w.
Hypothesis Hclient :
  fst (_get_saml_client settings (get_current_domain settings r)
         (session w !! "saml_metadata_conf_url")
         (session w !! "saml_metadata_conf_raw") w) = Ret client.

(** X4.  In [acs] the default destination is computed before it is known
    whether it is needed: when [admin:index] does not reverse, [acs] raises
    once the client is built, before the posted assertion is looked at, also
    for a session that carries a target and with [DEFAULT_NEXT_URL]
    configured. *)
Theorem acs_needs_the_default_route :
  reverse (ViewName "admin:index") = None ->
  acs settings r w =
    (Raise (ReverseIssue [ViewName "admin:index"]),
     add_trace w [ESessionGet "saml_metadata_conf_url";
                  ESessionGet "saml_metadata_conf_raw";
                  EClient (loaded (config client))]).
Proof.
  intros Hadmin. acs_start Hflow Hclient.
  step_raise (reverse_fails _ _ Hadmin).
  by rewrite !add_trace_app.
Qed.

(** X5.  A request without assertion, an assertion that pysaml2 answers with
    [None], and a response without identity are all answered with the
    redirect to the denial page; the session is neither flushed nor changed,
    nobody is looked up or logged in, and without assertion nothing is
    parsed. *)
Theorem acs_denies_without_identity admin page :
  reverse (ViewName "admin:index") = Some admin ->
  first_reverse [ViewFn "denied"; ViewName "denied"; ViewName "django_saml2_auth:denied"]
    = Some page ->
  (truthy (POST r !! "SAMLResponse") = false \/
   exists payload,
     POST r !! "SAMLResponse" = Some payload /\ payload <> "" /\
     (parse_authn_request_response client payload BINDING_HTTP_POST = inr None \/
      exists response,
        parse_authn_request_response client payload BINDING_HTTP_POST
          = inr (Some response) /\
        get_identity response = None)) ->
  exists evs,
    acs settings r w = (Ret (HttpResponseRedirect (Some page)), add_trace w evs) /\
    (ESessionFlush ∉ evs) /\
    (forall id, ELogin id ∉ evs) /\
    (forall mail, EUserLookup mail ∉ evs) /\
    (truthy (POST r !! "SAMLResponse") = false -> forall payload, EParse payload ∉ evs).
Proof.
  intros Hadmin Hpage Hcase.
  destruct Hcase as [Hresp|(payload & Hpost & Hne & [Hparse|(response & Hparse & Hid)])].
  - eexists. split.
    + acs_start Hflow Hclient.
      step (reverse_run _ _ _ Hadmin).
      step (session_get_default_run "login_next_url" _ _).
      rewrite Hresp. cbn [negb]. rewrite (denied_run page) by done.
      by rewrite !add_trace_app.
    + repeat split; intros; intros Hin; cbn [app] in Hin; in_events.
  - eexists. split.
    + acs_start Hflow Hclient.
      step (reverse_run _ _ _ Hadmin).
      step (session_get_default_run "login_next_url" _ _).
      rewrite Hpost, (truthy_Some payload Hne). cbn [negb default from_option id].
      step (emit_run _ _). rewrite Hparse. cbn [lift].
      step (eq_refl : ret None _ = (Ret None, _)).
      rewrite (denied_run page) by done. by rewrite !add_trace_app.
    + repeat split; intros; try (intros Hin; cbn [app] in Hin; in_events).
      rewrite Hpost, (truthy_Some payload Hne) in *. discriminate.
  - eexists. split.
    + acs_start Hflow Hclient.
      step (reverse_run _ _ _ Hadmin).
      step (session_get_default_run "login_next_url" _ _).
      rewrite Hpost, (truthy_Some payload Hne). cbn [negb default from_option id].
      step (emit_run _ _). rewrite Hparse. cbn [lift].
      step (eq_refl : ret (Some response) _ = (Ret (Some response), _)).
      rewrite Hid, (denied_run page) by done. by rewrite !add_trace_app.
    + repeat split; intros; try (intros Hin; cbn [app] in Hin; in_events).
      rewrite Hpost, (truthy_Some payload Hne) in *. discriminate.
Qed.

(** X6.  An exception that pysaml2 raises while it parses the assertion is not
    turned into a denial: [acs] raises it, right after the parsing. *)
Theorem acs_passes_on_parse_exception admin payload e :
  reverse (ViewName "admin:index") = Some admin ->
  POST r !! "SAMLResponse" = Some payload ->
  payload <> "" ->
  parse_authn_request_response client payload BINDING_HTTP_POST = inl e ->
  acs settings r w = (Raise e, add_trace w (validation_events client payload)).
Proof.
  intros Hadmin Hpost Hne Hparse. acs_start Hflow Hclient.
  step (reverse_run _ _ _ Hadmin).
  step (session_get_default_run "login_next_url" _ _).
  rewrite Hpost, (truthy_Some payload Hne). cbn [negb default from_option id].
  step (emit_run _ _). rewrite Hparse. cbn [lift].
  step_raise (eq_refl : raise e _ = (Raise e, _)).
  by rewrite !add_trace_app.
Qed.

End Started.

End ConsumerRuns.

Section ResolvedRuns.
Context `{E : Env}.
Variable settings : Settings.
Variables (r : Request) (w : World) (client : Saml2Client).
Variables (admin payload : string) (identity : Identity).
Variables (mail uname first last : string).
Hypothesis Hv : validated settings r w client admin payload identity.
Hypothesis Ha : has_attributes settings identity mail uname first last.

(** [acs] up to the lookup of the user. *)
Ltac to_lookup :=
  rewrite (acs_validated settings r w client admin payload identity Hv);
  destruct Ha as ([m1 H1] & [m2 H2] & [m3 H3] & [m4 H4]);
  step (first_value _ _ _ _ _ H1); step (first_value _ _ _ _ _ H2);
  step (first_value _ _ _ _ _ H3); step (first_value _ _ _ _ _ H4);
  unfold_run; cbn [add_trace users].

(** X7.  When more than one user has the asserted email up to case, the lookup
    raises [MultipleObjectsReturned], which [acs] does not handle: it raises
    right after the lookup, and nobody is logged in. *)
Theorem acs_raises_on_ambiguous_email u1 u2 others :
  List.filter (fun v => iexact (email v) mail) (users w) = u1 :: u2 :: others ->
  acs settings r w =
    (Raise MultipleObjectsReturned,
     add_trace w (validation_events client payload ++ [EUserLookup mail])).
Proof.
  intros Hmany. to_lookup. rewrite Hmany. unfold_run.
  unfold add_trace. cbn [session auth users group_table trace].
  by rewrite <- !app_assoc.
Qed.

(** X8.  The [BEFORE_LOGIN] hook runs inside the [try] block of the lookup: if
    loading or calling it raises [User.DoesNotExist], [acs] answers as if the
    user was not found, although it was; any other exception is raised by
    [acs].  In both cases the session is not flushed and nobody is logged
    in. *)
Theorem acs_hook_exception u path e :
  List.filter (fun v => iexact (email v) mail) (users w) = [u] ->
  default ∅ (TRIGGER settings) !! "BEFORE_LOGIN" = Some path ->
  path <> "" ->
  (import_string path = inl e \/
   exists hook, import_string path = inr hook /\ hook identity = inl e) ->
  exists evs,
    acs settings r w =
      (match e with
       | UserDoesNotExist =>
           Ret (HttpResponseRedirect (Some "/login/?sso_login_no_user=true"))
       | _ => Raise e
       end, add_trace w (validation_events client payload ++ EUserLookup mail :: evs)) /\
    (ESessionFlush ∉ evs) /\
    (forall id, ELogin id ∉ evs) /\
    (e = UserDoesNotExist ->
     ELog WARNING ("SSO user was not found: " ++ mail) ∈ evs).
Proof.
  intros Hu Hpath Hne Hfail. to_lookup. rewrite Hu, Hpath.
  cbn [truthy default from_option id].
  destruct (String.eqb_spec path "") as [?|_]; [contradiction|]. cbn [negb].
  destruct Hfail as [Himport|(hook & Himport & Hcall)]; rewrite Himport; unfold_run;
    rewrite ?Hcall; unfold_run; destruct e; unfold_run;
    unfold add_trace; cbn [session auth users group_table trace];
    rewrite <- ?app_assoc; cbn [app];
    (eexists; split; [reflexivity|]);
    (repeat split; intros; try discriminate; try (by repeat constructor);
     intros Hin; in_events).
Qed.

(** X9.  When the user is resolved and a [BEFORE_LOGIN] hook is configured, the
    hook is called once, after the lookup and before the session is flushed,
    and it is called for an inactive user as well, who is then denied. *)
Theorem acs_calls_hook_before_flush u path :
  List.filter (fun v => iexact (email v) mail) (users w) = [u] ->
  default ∅ (TRIGGER settings) !! "BEFORE_LOGIN" = Some path ->
  path <> "" ->
  (exists hook, import_string path = inr hook /\ hook identity = inr tt) ->
  adds (acs settings r) w
    (validation_events client payload ++
     [EUserLookup mail; EHook path; ESessionFlush] ++
     (if is_active u then [ELogin (pk u)] else [])).
Proof.
  intros Hu Hpath Hne Hhook.
  assert (Hret : before_login_returns settings identity).
  { intros path' Hpath' _. rewrite Hpath in Hpath'. by injection Hpath' as <-. }
  unfold adds.
  rewrite (acs_resolved settings r w client admin payload identity Hv
             mail uname first last u Ha Hu Hret).
  cbn [snd trace]. unfold hook_events. rewrite Hpath.
  destruct (String.eqb_spec path "") as [?|_]; [contradiction|].
  by rewrite <- ?app_assoc.
Qed.

(** X10.  Flow state is used once: after a run of [acs] that resolved a user,
    the same or any other request posted to [acs] finds no flow state and is
    sent to the initiation endpoint; nobody is logged in by it. *)
Theorem acs_second_post_finds_no_flow u login_url r2 :
  List.filter (fun v => iexact (email v) mail) (users w) = [u] ->
  before_login_returns settings identity ->
  reverse (ViewName "sso_login") = Some login_url ->
  acs settings r2 (snd (acs settings r w)) =
    (Ret (HttpResponseRedirect (Some login_url)),
     add_trace (snd (acs settings r w))
       [ESessionGet "saml_metadata_conf_url"; ESessionGet "saml_metadata_conf_raw";
        ELog INFO "No saml_metadata_conf found"]).
Proof.
  intros Hu Hret Hlogin.
  apply acs_no_flow; [| |done];
    rewrite (acs_resolved settings r w client admin payload identity Hv
               mail uname first last u Ha Hu Hret);
    cbn [snd session]; by rewrite lookup_empty.
Qed.

End ResolvedRuns.

Section AnyRun.
Context `{E : Env}.
Variable settings : Settings.

Lemma same_events {A} (m : M A) w evs evs' :
  adds m w evs -> adds m w evs' -> evs = evs'.
Proof. unfold adds. intros -> H. by apply app_inv_head in H. Qed.

(** X11.  Whoever [acs] logs in is an active user of the user table whose stored
    email is, up to letter case, the email that was looked up; [acs] logs in
    at most one user. *)
Theorem acs_logs_in_only_active_matches r w evs id :
  adds (acs settings r) w evs ->
  ELogin id ∈ evs ->
  exists u mail,
    u ∈ users w /\ pk u = id /\ is_active u = true /\
    EUserLookup mail ∈ evs /\ lower (email u) = lower mail /\
    auth (snd (acs settings r w)) = Some id /\
    forall other, ELogin other ∈ evs -> other = id.
Proof.
  intros Hevs Hin.
  destruct (acs_every_run settings r w)
    as (evs' & Hevs' & _ & _ & _ & _ & _ & Hcases).
  rewrite (same_events _ _ _ _ Hevs Hevs') in *.
  destruct Hcases as [(_ & _ & _ & Hno)|(_ & _ & [[_ Hno]|Hlogin])];
    [by apply Hno in Hin..|].
  destruct Hlogin as (u & mail & Hauth & Honly & Hu & Hactive & Hlookup & Hmatch).
  apply Honly in Hin as ->.
  exists u, mail. repeat split; try done.
  - by apply String.eqb_eq.
  - intros other Hother. by apply Honly.
Qed.

(** X12.  On return from [acs] the session is either as it was or rid of
    the flow state: in a run without flush the session data and the login
    are those of before; in a run with a flush none of the three keys of the
    flow state (the metadata URL, the raw metadata, the target) is left in
    the session. *)
Theorem acs_keeps_or_flushes_session r w evs :
  adds (acs settings r) w evs ->
  (ESessionFlush ∉ evs ->
     session (snd (acs settings r w)) = session w /\
     auth (snd (acs settings r w)) = auth w) /\
  (ESessionFlush ∈ evs ->
     session (snd (acs settings r w)) !! "saml_metadata_conf_url" = None /\
     session (snd (acs settings r w)) !! "saml_metadata_conf_raw" = None /\
     session (snd (acs settings r w)) !! "login_next_url" = None).
Proof.
  intros Hevs.
  destruct (acs_every_run settings r w)
    as (evs' & Hevs' & _ & _ & _ & _ & _ & Hcases).
  rewrite (same_events _ _ _ _ Hevs Hevs') in *.
  destruct Hcases as [(Hno & Hs & Ha & _)|(Hyes & Hs & _)].
  - split; [done|]. intros Hin. by apply Hno in Hin.
  - split; [intros Hno; by apply Hno in Hyes|].
    intros _. rewrite Hs. by rewrite !lookup_empty.
Qed.

(** X13.  Every response of [acs] is a redirect, to one of four places: the
    initiation endpoint, the denial page, the login page with the no-user
    signal, or the target read from the session, with [DEFAULT_NEXT_URL]
    and then the reversal of [admin:index] as defaults. *)
Theorem acs_answers_with_four_redirects r w response :
  fst (acs settings r w) = Ret response ->
  acs_response settings w response.
Proof.
  intros Hret.
  destruct (acs_every_run settings r w) as (evs & _ & _ & _ & _ & _ & Hresp & _).
  by apply Hresp.
Qed.

(** X14.  The settings with which [signin] prepares the request are the settings
    with which [acs] validates the response, as long as the domain and the
    metadata of the session are the same in the two requests. *)
Theorem signin_and_acs_build_the_same_settings r1 w1 r2 w2 evs1 evs2 s1 s2 :
  get_current_domain settings r1 = get_current_domain settings r2 ->
  session w1 !! "saml_metadata_conf_url" = session w2 !! "saml_metadata_conf_url" ->
  session w1 !! "saml_metadata_conf_raw" = session w2 !! "saml_metadata_conf_raw" ->
  adds (signin settings r1) w1 evs1 ->
  adds (acs settings r2) w2 evs2 ->
  EClient s1 ∈ evs1 -> EClient s2 ∈ evs2 -> s1 = s2.
Proof.
  intros Hdom Hurl Hraw Hevs1 Hevs2 Hin1 Hin2.
  destruct (signin_every_run settings r1 w1) as (evs1' & Hevs1' & _ & _ & _ & Hb1 & _).
  destruct (acs_every_run settings r2 w2) as (evs2' & Hevs2' & _ & _ & _ & Hb2 & _).
  rewrite (same_events _ _ _ _ Hevs1 Hevs1') in *.
  rewrite (same_events _ _ _ _ Hevs2 Hevs2') in *.
  specialize (Hb1 s1 Hin1 w1). specialize (Hb2 s2 Hin2 w1).
  rewrite Hdom, Hurl, Hraw in Hb1.
  assert (Heq : [EClient s1] = [EClient s2]) by (by eapply same_events).
  by injection Heq.
Qed.

(** X15.  With [ASSERTION_URL] configured, the entity ID and the consumer URLs
    of every client that [acs] builds are made from it: they depend neither
    on the host nor on the scheme of the request. *)
Theorem acs_entity_id_from_assertion_url base r w evs s :
  ASSERTION_URL settings = Some base ->
  adds (acs settings r) w evs ->
  EClient s ∈ evs ->
  exists path,
    first_reverse [ViewFn "acs"; ViewName "acs"; ViewName "django_saml2_auth:acs"]
      = Some path /\
    entityid s = Some (base ++ path) /\
    assertion_consumer_service (service_sp s) =
      [(base ++ path, BINDING_HTTP_REDIRECT); (base ++ path, BINDING_HTTP_POST)].
Proof.
  intros Hbase Hevs Hin.
  destruct (acs_every_run settings r w) as (evs' & Hevs' & _ & _ & _ & Hb & _).
  rewrite (same_events _ _ _ _ Hevs Hevs') in *.
  specialize (Hb s Hin w). unfold get_current_domain in Hb. rewrite Hbase in Hb.
  destruct (first_reverse
              [ViewFn "acs"; ViewName "acs"; ViewName "django_saml2_auth:acs"])
    as [path|] eqn:Hp.
  - destruct (_get_saml_client_run settings base
                (session w !! "saml_metadata_conf_url")
                (session w !! "saml_metadata_conf_raw") path w Hp)
      as (s' & Hrun & _ & Hid & Hsp).
    unfold adds in Hb. rewrite Hrun in Hb. cbn [snd add_trace trace] in Hb.
    apply app_inv_head in Hb. injection Hb as <-.
    exists path. rewrite Hsp. by repeat split.
  - exfalso. unfold adds, _get_saml_client in Hb.
    rewrite (bind_Raise _ _ w (ReverseIssue
               [ViewFn "acs"; ViewName "acs"; ViewName "django_saml2_auth:acs"]) w)
      in Hb.
    + cbn [snd] in Hb. rewrite <- (app_nil_r (trace w)) in Hb at 1.
      by apply app_inv_head in Hb.
    + rewrite get_reverse_run. cbn [acs_objs]. by rewrite Hp.
Qed.

(** X16.  [signout] logs out before it renders: whether or not the
    template of the confirmation page exists, the session data are deleted,
    the session is logged out and the user table is as it was; the response
    is the page when the template exists, and otherwise [signout] raises
    [TemplateDoesNotExist]; in both cases a post to [acs] afterwards finds no
    flow state. *)
Theorem signout_ends_the_flow template_exists r w r2 login_url :
  reverse (ViewName "sso_login") = Some login_url ->
  fst (signout template_exists r w) =
    (if template_exists "django_saml2_auth/signout.html"
     then Ret (Render "django_saml2_auth/signout.html")
     else Raise (External "TemplateDoesNotExist")) /\
  session (snd (signout template_exists r w)) = ∅ /\
  auth (snd (signout template_exists r w)) = None /\
  users (snd (signout template_exists r w)) = users w /\
  fst (acs settings r2 (snd (signout template_exists r w)))
    = Ret (HttpResponseRedirect (Some login_url)).
Proof.
  intros Hlogin.
  assert (Hrun : signout template_exists r w =
    (if template_exists "django_saml2_auth/signout.html"
     then Ret (Render "django_saml2_auth/signout.html")
     else Raise (External "TemplateDoesNotExist"),
     {| session := ∅; auth := None; users := users w;
        group_table := group_table w; trace := trace w ++ [ELogout] |})).
  { unfold signout, logout, render. unfold_run.
    by destruct (template_exists _). }
  rewrite Hrun. cbn [fst snd session auth users]. repeat split.
  by rewrite (acs_no_flow settings r2 _ login_url).
Qed.

End AnyRun.

(** ** More on the initiation *)

Section InitiationRuns.
Context `{E : Env}.
Variable settings : Settings.

Lemma find_location_none headers :
  no_location headers -> find_location headers = None.
Proof.
  induction headers as [|[key value] headers IH]; intros Hno; [done|].
  cbn [find_location].
  destruct (String.eqb_spec key "Location") as [->|_].
  - exfalso. apply (Hno "Location" value); [by left|done].
  - apply IH. intros k v Hin. apply (Hno k v). by right.
Qed.

Lemma find_location_first before value after :
  no_location before ->
  find_location (before ++ ("Location", value) :: after) = Some value.
Proof.
  induction before as [|[k v] before IH]; intros Hno; [done|].
  cbn [app find_location].
  destruct (String.eqb_spec k "Location") as [->|_].
  - exfalso. apply (Hno "Location" v); [by left|done].
  - apply IH. intros k' v' Hin. apply (Hno k' v'). by right.
Qed.

(** X17.  In [signin] too the default destination is computed first: when
    [admin:index] does not reverse, [signin] raises at once and does nothing
    else, also for a request that brings its own [next] and with
    [DEFAULT_NEXT_URL] configured. *)
Theorem signin_needs_the_default_route r w :
  reverse (ViewName "admin:index") = None ->
  signin settings r w = (Raise (ReverseIssue [ViewName "admin:index"]), w).
Proof.
  intros Hadmin. unfold signin. apply bind_Raise.
  by rewrite get_reverse_run, first_reverse_One, Hadmin.
Qed.

(** X18.  [signin] with a safe target and a client: the target is stored, and
    the response is a redirect to the value of the first [Location] header
    of the prepared request; without such a header the redirect has no
    location ([HttpResponseRedirect(None)]), and an exception of pysaml2 is
    raised by [signin], the target being stored already. *)
Theorem signin_redirects_to_location r w admin client :
  reverse (ViewName "admin:index") = Some admin ->
  url_has_allowed_host_and_scheme
    (unwrapped_next (requested_next settings r admin)) None = true ->
  fst (_get_saml_client settings (get_current_domain settings r)
         (session w !! "saml_metadata_conf_url")
         (session w !! "saml_metadata_conf_raw") w) = Ret client ->
  session (snd (signin settings r w)) =
    <["login_next_url" := unwrapped_next (requested_next settings r admin)]> (session w) /\
  (forall e, prepare_for_authenticate client = inl e ->
     fst (signin settings r w) = Raise e) /\
  (forall id headers,
     prepare_for_authenticate client = inr (id, headers) ->
     (no_location headers ->
        fst (signin settings r w) = Ret (HttpResponseRedirect None)) /\
     (forall before value after,
        headers = (before ++ ("Location", value) :: after)%list ->
        no_location before ->
        fst (signin settings r w) = Ret (HttpResponseRedirect (Some value)))).
Proof.
  intros Hadmin Hok Hclient.
  rewrite (signin_resolved settings r admin w Hadmin).
  cbv zeta. rewrite Hok. cbn [negb].
  set (target := unwrapped_next (requested_next settings r admin)).
  step (session_setitem_run "login_next_url" target w).
  step (session_get_run "saml_metadata_conf_url" _).
  step (session_get_run "saml_metadata_conf_raw" _).
  cbn [add_trace session].
  rewrite !lookup_insert_ne by done.
  step (_get_saml_client_Ret settings _ _ _ _ _ Hclient _).
  step (emit_run EPrepare _).
  unfold bind, lift.
  destruct (prepare_for_authenticate client) as [e|[id headers]] eqn:Hprep;
    cbn [fst snd session add_trace ret raise].
  - split; [done|]. split; [by intros e' [= <-]|]. intros ? ? [=].
  - split; [done|]. split; [intros ? [=]|].
    intros id' headers' [= <- <-]. split.
    + intros Hno. by rewrite find_location_none.
    + intros before value after -> Hno. by rewrite find_location_first.
Qed.

(** X19.  Whatever [signin] stores in the session is stored under
    [login_next_url] and has passed the safety check; the other keys of the
    session, the login and the user table are left as they were, and
    [signin] flushes nothing, looks nobody up and logs nobody in; every
    response is a redirect. *)
Theorem signin_stores_only_checked_targets r w evs :
  adds (signin settings r) w evs ->
  (forall key value,
     ESessionSet key value ∈ evs ->
     key = "login_next_url" /\
     url_has_allowed_host_and_scheme value None = true /\
     session (snd (signin settings r w)) !! "login_next_url" = Some value) /\
  (forall key, key <> "login_next_url" ->
     session (snd (signin settings r w)) !! key = session w !! key) /\
  auth (snd (signin settings r w)) = auth w /\
  users (snd (signin settings r w)) = users w /\
  (ESessionFlush ∉ evs) /\
  (forall id, ELogin id ∉ evs) /\
  (forall mail, EUserLookup mail ∉ evs) /\
  (forall response, fst (signin settings r w) = Ret response ->
     exists target, response = HttpResponseRedirect target).
Proof.
  intros Hevs.
  destruct (signin_every_run settings r w)
    as (evs' & Hevs' & Husers & _ & Hauth & _ & Hresp & Hkinds & _ & Hkeys).
  assert (evs = evs') as ->.
  { unfold adds in *. rewrite Hevs in Hevs'. by apply app_inv_head in Hevs'. }
  repeat split; try done.
  - by destruct (Hkinds _ H).
  - by destruct (Hkinds _ H) as (_ & ? & _).
  - destruct (Hkinds _ H) as (-> & _ & ->). apply lookup_insert_eq.
  - intros Hin. by apply Hkinds in Hin.
  - intros id Hin. by apply Hkinds in Hin.
  - intros mail Hin. by apply Hkinds in Hin.
Qed.

(** X20.  The target that [signin] stored is where [acs] sends the user: when a
    request to [signin] has a safe target, and a later post to [acs] in the
    same session resolves an active user, the response of [acs] is the
    redirect to that target. *)
Theorem acs_redirects_to_the_target_of_signin
    r w admin r2 client payload identity mail uname first last u :
  reverse (ViewName "admin:index") = Some admin ->
  url_has_allowed_host_and_scheme
    (unwrapped_next (requested_next settings r admin)) None = true ->
  validated settings r2 (snd (signin settings r w)) client admin payload identity ->
  has_attributes settings identity mail uname first last ->
  List.filter (fun v => iexact (email v) mail) (users w) = [u] ->
  is_active u = true ->
  before_login_returns settings identity ->
  fst (acs settings r2 (snd (signin settings r w))) =
    Ret (HttpResponseRedirect
           (Some (unwrapped_next (requested_next settings r admin)))) /\
  auth (snd (acs settings r2 (snd (signin settings r w)))) = Some (pk u).
Proof.
  intros Hadmin Hok Hv Ha Hu Hactive Hret.
  destruct (signin_every_run settings r w) as (evs & _ & Husers & _).
  destruct (signin_safe settings r admin w Hadmin Hok) as (evs' & _ & Hsession).
  rewrite <- Husers in Hu.
  rewrite (acs_resolved settings r2 _ client admin payload identity Hv
             mail uname first last u Ha Hu Hret).
  rewrite Hactive. cbn [fst snd auth]. split; [|done].
  by rewrite Hsession, lookup_insert_eq.
Qed.

End InitiationRuns.

(** ** Provisioning, the welcome page, and substrings *)

Section Tables.
Context `{E : Env}.
Variable settings : Settings.

Variable normalize_username : string -> string.

Lemma for_each_missing_group before g after w :
  (forall g', g' ∈ before -> g' ∈ group_table w) ->
  g ∉ group_table w ->
  for_each Group_objects_get (before ++ g :: after) w = (Raise (GroupDoesNotExist g), w).
Proof.
  intros Hbefore Hg.
  assert (Hno : existsb (String.eqb g) (group_table w) = false).
  { apply not_true_is_false. intros Hex.
    apply existsb_exists in Hex as (x & Hx & Heq).
    apply String.eqb_eq in Heq as <-. by apply Hg, list_elem_of_In. }
  induction before as [|b before IH]; cbn [app for_each].
  - unfold bind at 1, Group_objects_get, bind, get_world. by rewrite Hno.
  - assert (Hb : existsb (String.eqb b) (group_table w) = true).
    { apply existsb_exists. exists b. split.
      - apply list_elem_of_In, Hbefore. by left.
      - apply String.eqb_refl. }
    unfold bind at 1, Group_objects_get at 1, bind at 1, get_world. rewrite Hb.
    unfold ret at 1. unfold bind at 1.
    rewrite IH; [done|]. intros g' Hg'. apply Hbefore. by right.
Qed.

(** X23.  [_create_new_user] looks the configured groups up after it has
    inserted the user: with a username that is not empty and whose normal
    form is free, and a configured group that does not exist, the exception
    for the first such group is raised with the new row already in the
    table, where it has the defaults of the model (active, not staff, not
    superuser, no name, no group) and not those of [NEW_USER_PROFILE]. *)
Theorem _create_new_user_missing_group uname mail firstname lastname w before g after :
  uname <> "" ->
  (forall u, u ∈ users w -> username u <> normalize_username uname) ->
  default [] (USER_GROUPS (new_user_profile settings)) = (before ++ g :: after)%list ->
  (forall g', g' ∈ before -> g' ∈ group_table w) ->
  g ∉ group_table w ->
  _create_new_user settings normalize_username uname mail firstname lastname w =
    (Raise (GroupDoesNotExist g),
     {| session := session w; auth := auth w;
        users := users w ++ [created_row normalize_username (users w) uname mail];
        group_table := group_table w;
        trace := trace w ++ [EUserCreate uname mail] |}).
Proof.
  intros Hne Hfresh Hgroups Hbefore Hg.
  unfold _create_new_user, create_user.
  unfold bind at 1 2, emit at 1.
  destruct (String.eqb_spec uname "") as [?|_]; [contradiction|].
  unfold bind at 1, get_world at 1.
  cbn [users]. rewrite (fresh_username _ _ Hfresh).
  unfold bind at 1, set_users at 1, ret at 1.
  rewrite Hgroups.
  by erewrite bind_Raise by (by apply for_each_missing_group).
Qed.

(** X24.  The welcome page: a session that is not logged in gets the answer of
    [login_required]; a logged-in one gets the page when the template
    exists, without any route being reversed, and otherwise a redirect to
    [DEFAULT_NEXT_URL] or, by default, to the reversal of [admin:index],
    which is computed, and must succeed, also when [DEFAULT_NEXT_URL] is
    configured.  The view has no effect. *)
Theorem welcome_outcomes template_exists redirect_to_login r w :
  snd (welcome settings template_exists redirect_to_login r w) = w /\
  (auth w = None ->
     fst (welcome settings template_exists redirect_to_login r w)
       = Ret (redirect_to_login r)) /\
  (auth w <> None ->
     template_exists "django_saml2_auth/welcome.html" = true ->
     fst (welcome settings template_exists redirect_to_login r w)
       = Ret (Render "django_saml2_auth/welcome.html")) /\
  (auth w <> None ->
     template_exists "django_saml2_auth/welcome.html" = false ->
     fst (welcome settings template_exists redirect_to_login r w) =
       match reverse (ViewName "admin:index") with
       | Some admin =>
           Ret (HttpResponseRedirect (Some (default admin (DEFAULT_NEXT_URL settings))))
       | None => Raise (ReverseIssue [ViewName "admin:index"])
       end).
Proof.
  unfold welcome, login_required, render. unfold_run.
  rewrite first_reverse_One.
  destruct (auth w) as [id|]; cbn [fst snd].
  - destruct (template_exists _); cbn [fst snd handles_TemplateDoesNotExist String.eqb].
    + repeat split; intros; try done; try discriminate.
    + cbn. destruct (reverse (ViewName "admin:index"));
        repeat split; intros; try done; try discriminate.
  - repeat split; intros; try done; try discriminate.
Qed.

End Tables.

Section Substrings.

Lemma prefix_split a s :
  String.prefix a s = true <-> exists rest, s = a ++ rest.
Proof.
  revert s. induction a as [|c a IH]; intros [|d s]; simpl.
  - split; [by exists ""|done].
  - split; [by exists (String d s)|done].
  - split; [discriminate|by intros [rest [=]]].
  - destruct (ascii_dec c d) as [->|Hne].
    + rewrite IH. split; intros [rest Hrest]; exists rest; [by rewrite Hrest|].
      by injection Hrest.
    + split; [discriminate|]. intros [rest [= ? _]]. congruence.
Qed.

(** X25.  [str_contains], the model of Python's [in] for strings, holds exactly
    of the strings that have the needle as a substring. *)
Theorem str_contains_substring needle s :
  str_contains needle s = true <->
  exists before after, s = before ++ needle ++ after.
Proof.
  induction s as [|c s IH]; cbn [str_contains].
  - rewrite orb_false_r, prefix_split. split.
    + intros [rest ->]. by exists "", rest.
    + intros ([|? ?] & after & Heq); [by exists after|discriminate].
  - rewrite orb_true_iff, prefix_split, IH. split.
    + intros [[rest ->]|(before & after & ->)].
      * by exists "", rest.
      * by exists (String c before), after.
    + intros ([|d before] & after & Heq).
      * left. by exists after.
      * right. injection Heq as _ ->. by exists before, after.
Qed.

End Substrings.

(** ** The sample deployment, run *)

Section Scenarios.
Import Demo.

(** The happy path: flow state with inline metadata and target
    [/dashboard], a valid assertion for an active user whose stored email
    differs in case. *)
Example happy_path :
  fst (acs plain (post "alice") started)
    = Ret (HttpResponseRedirect (Some "/dashboard")) /\
  auth (snd (acs plain (post "alice") started)) = Some 1 /\
  session (snd (acs plain (post "alice") started)) = ∅.
Proof. by vm_compute. Qed.

(** The inactive user is denied, and logged in as nobody. *)
Example inactive_user :
  fst (acs plain (post "carol") started)
    = Ret (HttpResponseRedirect (Some "/sso/denied/")) /\
  auth (snd (acs plain (post "carol") started)) = None.
Proof. by vm_compute. Qed.

(** The same payload posted again, after the flush, finds no flow. *)
Example second_post_finds_no_flow :
  fst (acs plain (post "alice") (snd (acs plain (post "alice") started)))
    = Ret (HttpResponseRedirect (Some "/sso/login/")).
Proof. by vm_compute. Qed.

(** An assertion that the SAML library rejects with an exception. *)
Example tampered_assertion :
  fst (acs plain (post "tampered") started) = Raise (External "SignatureError").
Proof. by vm_compute. Qed.

(** A nested target is unwrapped, then stored. *)
Example nested_next :
  session (snd (signin plain (get "/login?next=/dashboard") fresh))
    !! "login_next_url" = Some "/dashboard".
Proof. by vm_compute. Qed.

(** [next=] outside the query string: the original value stays. *)
Example next_in_fragment :
  session (snd (signin plain (get "/a#next=b") fresh))
    !! "login_next_url" = Some "/a#next=b".
Proof. by vm_compute. Qed.

Example provisioning_helper :
  exists user w',
    _create_new_user provisioning Demo2.fold_first "Dave" "dave@example.com" "D" "E"
      started = (Ret user, w') /\
    username user = "dave" /\
    groups user = ["staff"] /\ is_active user = true /\
    is_staff user = false /\ is_superuser user = false /\
    users w' = [alice; carol; user].
Proof. do 2 eexists. by vm_compute. Qed.

End Scenarios.

(** ** Instances of the theorems, and the two readings refuted *)

Lemma validated_alice :
  validated Demo.plain (Demo.post "alice") Demo.started
    {| config := {| loaded :=
         {| metadata := MdInline ["<EntityDescriptor/>"];
            service_sp :=
              {| assertion_consumer_service :=
                   [("https://app.example/sso/acs/", BINDING_HTTP_REDIRECT);
                    ("https://app.example/sso/acs/", BINDING_HTTP_POST)];
                 allow_unsolicited := true; authn_requests_signed := false;
                 logout_requests_signed := true; want_assertions_signed := true;
                 want_response_signed := false; name_id_format := None |};
            entityid := Some "https://app.example/sso/acs/" |};
       allow_unknown_attributes := true |} |}
    "/admin/" "alice"
    (Demo.identity_of ["ALICE@example.com"; "alias@example.com"] "alice").
Proof.
  repeat split; try reflexivity; try discriminate.
  eexists. split; reflexivity.
Defined.

Lemma validated_mallory :
  validated Demo.plain (Demo.post "mallory") Demo.started
    {| config := {| loaded :=
         {| metadata := MdInline ["<EntityDescriptor/>"];
            service_sp :=
              {| assertion_consumer_service :=
                   [("https://app.example/sso/acs/", BINDING_HTTP_REDIRECT);
                    ("https://app.example/sso/acs/", BINDING_HTTP_POST)];
                 allow_unsolicited := true; authn_requests_signed := false;
                 logout_requests_signed := true; want_assertions_signed := true;
                 want_response_signed := false; name_id_format := None |};
            entityid := Some "https://app.example/sso/acs/" |};
       allow_unknown_attributes := true |} |}
    "/admin/" "mallory" (Demo.identity_of ["mallory@example.com"] "mallory").
Proof.
  repeat split; try reflexivity; try discriminate.
  eexists. split; reflexivity.
Defined.

Lemma attributes_alice :
  has_attributes Demo.plain
    (Demo.identity_of ["ALICE@example.com"; "alias@example.com"] "alice")
    "ALICE@example.com" "alice" "F" "L".
Proof. repeat split; eexists; reflexivity. Defined.

Lemma attributes_mallory :
  has_attributes Demo.plain (Demo.identity_of ["mallory@example.com"] "mallory")
    "mallory@example.com" "mallory" "F" "L".
Proof. repeat split; eexists; reflexivity. Defined.

Lemma C1_witness :
  reverse (ViewName "admin:index") = Some "/admin/" /\
  url_has_allowed_host_and_scheme
    (unwrapped_next (requested_next Demo.plain (Demo.get "https://evil.example/") "/admin/"))
    None = false /\
  fst (signin Demo.plain (Demo.get "https://evil.example/") Demo.fresh)
    = Ret (HttpResponseRedirect (Some "/sso/denied/")) /\
  snd (signin Demo.plain (Demo.get "https://evil.example/") Demo.fresh) = Demo.fresh.
Proof.
  split; [reflexivity|]. split; [reflexivity|].
  destruct (C1_unsafe_target_is_denied (E := Demo.env) Demo.plain (Demo.get "https://evil.example/")
              "/admin/" Demo.fresh eq_refl eq_refl) as (Hw & _ & _ & Hpage & _).
  split; [apply Hpage; reflexivity|exact Hw].
Defined.

Lemma C3_witness :
  acs Demo.plain (Demo.post "alice") Demo.fresh =
    (Ret (HttpResponseRedirect (Some "/sso/login/")),
     add_trace Demo.fresh [ESessionGet "saml_metadata_conf_url";
                           ESessionGet "saml_metadata_conf_raw";
                           ELog INFO "No saml_metadata_conf found"]).
Proof.
  apply (C3_no_flow_state_back_to_initiation (E := Demo.env) Demo.plain (Demo.post "alice")
           Demo.fresh "/sso/login/"); reflexivity.
Defined.

Lemma C5_witness :
  fst (acs Demo.plain (Demo.post "mallory") Demo.started)
    = Ret (HttpResponseRedirect (Some "/login/?sso_login_no_user=true")) /\
  users (snd (acs Demo.plain (Demo.post "mallory") Demo.started)) = users Demo.started.
Proof.
  destruct (C5_unmatched_email_is_turned_away (E := Demo.env) Demo.plain _ _ _ _ _ _
              validated_mallory _ _ _ _ attributes_mallory) as (Hrun & Husers & _).
  - intros u Hu.
    apply elem_of_cons in Hu as [->|Hu]; [discriminate|].
    apply elem_of_cons in Hu as [->|Hu]; [discriminate|].
    by apply elem_of_nil in Hu.
  - split; [by rewrite Hrun|exact Husers].
Defined.

Lemma C7_witness :
  exists evs,
    adds (acs Demo.plain (Demo.post "alice")) Demo.started
      (validation_events
         {| config := {| loaded :=
              {| metadata := MdInline ["<EntityDescriptor/>"];
                 service_sp :=
                   {| assertion_consumer_service :=
                        [("https://app.example/sso/acs/", BINDING_HTTP_REDIRECT);
                         ("https://app.example/sso/acs/", BINDING_HTTP_POST)];
                      allow_unsolicited := true; authn_requests_signed := false;
                      logout_requests_signed := true; want_assertions_signed := true;
                      want_response_signed := false; name_id_format := None |};
                 entityid := Some "https://app.example/sso/acs/" |};
            allow_unknown_attributes := true |} |} "alice"
       ++ EUserLookup "ALICE@example.com" :: evs)%list.
Proof.
  destruct (C7_missing_attribute_is_fatal (E := Demo.env) Demo.plain _ _ _ _ _ _ validated_alice)
    as [_ Hfirst].
  destruct (Hfirst _ _ _ _ attributes_alice) as (evs & Hevs & _).
  by exists evs.
Defined.

Lemma C8_witness :
  first_reverse [ViewFn "acs"; ViewName "acs"; ViewName "django_saml2_auth:acs"]
    = Some "/sso/acs/" /\
  exists s,
    adds (_get_saml_client Demo.plain "https://app.example"
            (Some "https://idp.example/metadata") (Some "<EntityDescriptor/>"))
         Demo.fresh [EClient s] /\
    metadata s = MdInline ["<EntityDescriptor/>"].
Proof.
  split; [reflexivity|].
  destruct (C8_inline_metadata_has_priority (E := Demo.env) Demo.plain "https://app.example"
              (Some "https://idp.example/metadata") (Some "<EntityDescriptor/>")
              "/sso/acs/" Demo.fresh eq_refl) as (s & Hadds & _ & Hraw & _).
  exists s. split; [exact Hadds|]. apply Hraw; [reflexivity|discriminate].
Defined.

Lemma C9_witness :
  first_reverse [ViewFn "acs"; ViewName "acs"; ViewName "django_saml2_auth:acs"]
    = Some "/sso/acs/" /\
  exists s,
    adds (_get_saml_client Demo.plain "https://app.example"
            (Some "https://idp.example/metadata") None)
         Demo.fresh [EClient s] /\
    entityid s = Some "https://app.example/sso/acs/" /\
    want_assertions_signed (service_sp s) = true.
Proof.
  split; [reflexivity|].
  destruct (C9_sp_configuration (E := Demo.env) Demo.plain "https://app.example"
              (Some "https://idp.example/metadata") None
              "/sso/acs/" Demo.fresh eq_refl)
    as (s & Hadds & _ & _ & Hid & _ & _ & _ & Hwant & _).
  exists s. split; [exact Hadds|]. split; [exact Hid|exact Hwant].
Defined.

Lemma C10_witness :
  reverse (ViewName "admin:index") = Some "/admin/" /\
  unwrapped_next
    (requested_next Demo.plain (Demo.get "/login?next=/dashboard") "/admin/")
    = "/dashboard" /\
  session (snd (signin Demo.plain (Demo.get "/login?next=/dashboard") Demo.fresh))
    !! "login_next_url" = Some "/dashboard".
Proof.
  split; [reflexivity|]. split; [reflexivity|].
  destruct (C10_signin_unwraps_nested_next (E := Demo.env) Demo.plain
              (Demo.get "/login?next=/dashboard") "/admin/" Demo.fresh eq_refl)
    as [_ Hsafe].
  destruct (Hsafe eq_refl) as (evs & _ & Hstored). exact Hstored.
Defined.

Lemma C2_witness :
  session (snd (acs Demo.plain (Demo.post "alice") Demo.started)) = ∅ /\
  fst (acs Demo.plain (Demo.post "alice") Demo.started)
    = Ret (HttpResponseRedirect (Some "/dashboard")).
Proof.
  destruct (C2_resolved_user_flushes_session (E := Demo.env) Demo.plain _ _ _ _ _ _
              validated_alice _ _ _ _ Demo.alice attributes_alice)
    as (_ & Hempty & Hactive & _).
  - reflexivity.
  - intros path Hpath. discriminate Hpath.
  - split; [exact Hempty|]. by destruct (Hactive eq_refl).
Defined.

Lemma C6_witness :
  exists evs before,
    adds (acs Demo.plain (Demo.post "alice")) Demo.started evs /\
    evs = (before ++ [ESessionFlush; ELogin 1])%list /\
    ESessionGet "login_next_url" ∈ before.
Proof.
  destruct (C6_session_operations_are_sequenced (E := Demo.env) Demo.plain (Demo.post "alice")
              Demo.started) as (evs & Hadds & Hseq).
  assert (Hin : ELogin 1 ∈ evs).
  { unfold adds in Hadds. vm_compute in Hadds. rewrite <- Hadds.
    repeat constructor. }
  destruct (Hseq 1 Hin) as ((before & Heq & _ & _ & Hnext & _) & _).
  exists evs, before. by repeat split.
Defined.

Lemma C4_witness :
  CREATE_USER Demo.provisioning = Some true /\
  users (snd (acs Demo.provisioning (Demo.post "mallory") Demo.started))
    = users Demo.started /\
  fst (acs Demo.provisioning (Demo.post "mallory") Demo.started)
    = Ret (HttpResponseRedirect (Some "/login/?sso_login_no_user=true")).
Proof.
  split; [reflexivity|].
  destruct (C4_unmatched_email_is_never_provisioned (E := Demo.env) Demo.provisioning
              (Demo.post "mallory") Demo.started (Demo2.client_of None) "/admin/"
              "mallory" (Demo.identity_of ["mallory@example.com"] "mallory")
              ltac:(repeat split; try reflexivity; try discriminate;
                    eexists; split; reflexivity)
              "mallory@example.com" "mallory" "F" "L"
              ltac:(repeat split; eexists; reflexivity))
    as (evs & _ & _ & _ & _ & Husers & Hresp).
  - intros u Hu.
    apply elem_of_cons in Hu as [->|Hu]; [discriminate|].
    apply elem_of_cons in Hu as [->|Hu]; [discriminate|].
    by apply elem_of_nil in Hu.
  - by split.
Defined.

(** A request with flow state but no assertion is denied, and the flow
    state is still in the session afterwards. *)
Lemma C2_counterexample :
  has_flow_state Demo.started /\
  fst (acs Demo.plain Demo.post_nothing Demo.started)
    = Ret (HttpResponseRedirect (Some "/sso/denied/")) /\
  session (snd (acs Demo.plain Demo.post_nothing Demo.started))
    !! "saml_metadata_conf_raw" = Some "<EntityDescriptor/>" /\
  ~ acs_always_flushes_flow_state.
Proof.
  split; [reflexivity|]. split; [reflexivity|]. split; [reflexivity|].
  intros Hclaim.
  destruct (Hclaim Demo.env Demo.plain Demo.post_nothing Demo.started
              (trace (snd (acs Demo.plain Demo.post_nothing Demo.started))))
    as [Hflush _]; [reflexivity|reflexivity|].
  apply list_elem_of_In in Hflush. vm_compute in Hflush.
  intuition discriminate.
Qed.

(** With everything that the provisioning branch would read configured,
    an unknown email is turned away and the user table does not grow. *)
Lemma C4_counterexample :
  CREATE_USER Demo.provisioning = Some true /\
  fst (acs Demo.provisioning (Demo.post "mallory") Demo.started)
    = Ret (HttpResponseRedirect (Some "/login/?sso_login_no_user=true")) /\
  users (snd (acs Demo.provisioning (Demo.post "mallory") Demo.started))
    = users Demo.started /\
  ~ acs_provisions_when_enabled.
Proof.
  split; [reflexivity|]. split; [reflexivity|]. split; [reflexivity|].
  intros Hclaim.
  destruct (Hclaim Demo.env Demo.provisioning (Demo.post "mallory") Demo.started
              (trace (snd (acs Demo.provisioning (Demo.post "mallory") Demo.started)))
              "mallory@example.com")
    as [_ Hlen]; [reflexivity|reflexivity| |reflexivity|discriminate Hlen].
  apply list_elem_of_In. vm_compute. intuition.
Qed.

(** ** Instances of the further theorems *)

Lemma alice_identity_validated (w : World) :
  session w = Demo.flow ->
  validated (E := Demo.env) Demo.plain (Demo.post "alice") w (Demo2.client_of None)
    "/admin/" "alice"
    (Demo.identity_of ["ALICE@example.com"; "alias@example.com"] "alice").
Proof.
  intros Hs. unfold validated, has_flow_state. rewrite Hs.
  repeat split; try reflexivity; try discriminate.
  eexists. split; reflexivity.
Defined.

Lemma hooked_validated (path payload : string) (mails : list string) :
  Demo.validate (Demo2.client_of (Some Demo2.email_format)) payload BINDING_HTTP_POST
    = inr (Some {| get_identity := Some (Demo.identity_of mails payload) |}) ->
  payload <> "" ->
  forall env : Env,
    reverse = Demo.routes -> Saml2Config_load = (fun _ => inr tt) ->
    parse_authn_request_response = Demo.validate ->
    validated (E := env) (Demo2.with_hook path) (Demo.post payload) Demo.started
      (Demo2.client_of (Some Demo2.email_format)) "/admin/" payload
      (Demo.identity_of mails payload).
Proof.
  intros Hparse Hne env Hrev Hload Hval.
  unfold validated, has_flow_state, _get_saml_client, get_reverse, acs_objs, bind, lift, emit.
  cbn [first_reverse]. rewrite Hrev, Hload, Hval.
  repeat split; try reflexivity; try done.
  eexists. split; [exact Hparse|reflexivity].
Defined.

Lemma X1_witness :
  fst (get_reverse (E := Demo.env) denied_objs Demo.fresh) = Ret "/sso/denied/".
Proof.
  destruct (get_reverse_first_match (E := Demo.env) denied_objs Demo.fresh)
    as (_ & Hret & _).
  apply Hret. exists [], (ViewFn "denied"), [ViewName "denied"; ViewName "django_saml2_auth:denied"].
  repeat split. intros o Hin. by apply elem_of_nil in Hin.
Defined.

Lemma X2_witness :
  _get_metadata (Demo2.with_hook "hooks.audit") Demo.fresh
    = (Ret (MdLocal ["/etc/saml/idp.xml"]), Demo.fresh) /\
  metadata (loaded (config (Demo2.client_of (Some Demo2.email_format))))
    <> MdLocal [].
Proof.
  destruct (_get_saml_client_reads_two_settings (E := Demo.env)
              (Demo2.with_hook "hooks.audit") "https://app.example" None
              (Some "<EntityDescriptor/>") Demo.fresh) as (_ & Hnever & Hlocal).
  split; [by apply Hlocal|].
  by apply (Hnever _ []).
Defined.

Lemma X3_witness :
  allow_unknown_attributes (config (Demo2.client_of (Some Demo2.email_format))) = true /\
  name_id_format (service_sp (loaded (config (Demo2.client_of (Some Demo2.email_format)))))
    = Some Demo2.email_format.
Proof.
  destruct (_get_saml_client_outcomes (E := Demo.env)
              (Demo2.with_hook "hooks.audit") "https://app.example" None
              (Some "<EntityDescriptor/>") Demo.fresh) as (_ & Hret & _).
  destruct (Hret (Demo2.client_of (Some Demo2.email_format)) eq_refl) as (Hu & Hf & _).
  by split.
Defined.

Lemma X4_witness :
  fst (acs (E := Demo2.bare) Demo.plain (Demo.post "alice") Demo.started)
    = Raise (ReverseIssue [ViewName "admin:index"]).
Proof.
  by rewrite (acs_needs_the_default_route (E := Demo2.bare) Demo.plain
                (Demo.post "alice") Demo.started (Demo2.client_of None)
                eq_refl eq_refl eq_refl).
Defined.

Lemma X5_witness :
  exists evs,
    acs (E := Demo.env) Demo.plain Demo.post_nothing Demo.started
      = (Ret (HttpResponseRedirect (Some "/sso/denied/")), add_trace Demo.started evs) /\
    ESessionFlush ∉ evs.
Proof.
  destruct (acs_denies_without_identity (E := Demo.env) Demo.plain Demo.post_nothing
              Demo.started (Demo2.client_of None) eq_refl eq_refl
              "/admin/" "/sso/denied/" eq_refl eq_refl (or_introl eq_refl))
    as (evs & Hrun & Hflush & _).
  by exists evs.
Defined.

Lemma X6_witness :
  fst (acs (E := Demo.env) Demo.plain (Demo.post "tampered") Demo.started)
    = Raise (External "SignatureError").
Proof.
  rewrite (acs_passes_on_parse_exception (E := Demo.env) Demo.plain
             (Demo.post "tampered") Demo.started (Demo2.client_of None)
             eq_refl eq_refl "/admin/" "tampered" (External "SignatureError")
             eq_refl eq_refl); [done|discriminate|done].
Defined.

Lemma X7_witness :
  fst (acs (E := Demo.env) Demo.plain (Demo.post "alice") Demo2.twins)
    = Raise MultipleObjectsReturned.
Proof.
  by rewrite (acs_raises_on_ambiguous_email (E := Demo.env) Demo.plain _ _ _ _ _ _
                "ALICE@example.com" "alice" "F" "L"
                (alice_identity_validated Demo2.twins eq_refl) attributes_alice
                Demo.alice (Demo.account 3 "alice2" "alice@EXAMPLE.com" true) []
                eq_refl).
Defined.

Lemma X8_witness :
  fst (acs (E := Demo2.hooked) (Demo2.with_hook "hooks.lookup") (Demo.post "alice")
         Demo.started)
    = Ret (HttpResponseRedirect (Some "/login/?sso_login_no_user=true")) /\
  fst (acs (E := Demo2.hooked) (Demo2.with_hook "hooks.audit") (Demo.post "alice")
         Demo.started)
    = Raise (External "AuditDown").
Proof.
  split.
  - destruct (acs_hook_exception (E := Demo2.hooked) (Demo2.with_hook "hooks.lookup")
                _ _ _ _ _ _ "ALICE@example.com" "alice" "F" "L"
                (hooked_validated "hooks.lookup" "alice"
                   ["ALICE@example.com"; "alias@example.com"] eq_refl
                   ltac:(discriminate) Demo2.hooked eq_refl eq_refl eq_refl)
                ltac:(repeat split; eexists; reflexivity)
                Demo.alice "hooks.lookup" UserDoesNotExist eq_refl eq_refl
                ltac:(discriminate)
                (or_intror (ex_intro _ (fun _ => inl UserDoesNotExist)
                              (conj eq_refl eq_refl))))
      as (evs & Hrun & _).
    by rewrite Hrun.
  - destruct (acs_hook_exception (E := Demo2.hooked) (Demo2.with_hook "hooks.audit")
                _ _ _ _ _ _ "ALICE@example.com" "alice" "F" "L"
                (hooked_validated "hooks.audit" "alice"
                   ["ALICE@example.com"; "alias@example.com"] eq_refl
                   ltac:(discriminate) Demo2.hooked eq_refl eq_refl eq_refl)
                ltac:(repeat split; eexists; reflexivity)
                Demo.alice "hooks.audit" (External "AuditDown") eq_refl eq_refl
                ltac:(discriminate)
                (or_intror (ex_intro _ (fun _ => inl (External "AuditDown"))
                              (conj eq_refl eq_refl))))
      as (evs & Hrun & _).
    by rewrite Hrun.
Defined.

Lemma X9_witness :
  adds (acs (E := Demo.env) (Demo2.with_hook "hooks.audit") (Demo.post "carol"))
    Demo.started
    (validation_events (Demo2.client_of (Some Demo2.email_format)) "carol" ++
     [EUserLookup "carol@example.com"; EHook "hooks.audit"; ESessionFlush]).
Proof.
  apply (acs_calls_hook_before_flush (E := Demo.env) (Demo2.with_hook "hooks.audit")
           _ _ _ _ _ _ "carol@example.com" "carol" "F" "L"
           (hooked_validated "hooks.audit" "carol" ["carol@example.com"] eq_refl
              ltac:(discriminate) Demo.env eq_refl eq_refl eq_refl)
           ltac:(repeat split; eexists; reflexivity)
           Demo.carol "hooks.audit" eq_refl eq_refl ltac:(discriminate)
           (ex_intro _ (fun _ => inr tt) (conj eq_refl eq_refl))).
Defined.

Lemma X10_witness :
  fst (acs (E := Demo.env) Demo.plain (Demo.post "alice")
         (snd (acs (E := Demo.env) Demo.plain (Demo.post "alice") Demo.started)))
    = Ret (HttpResponseRedirect (Some "/sso/login/")).
Proof.
  rewrite (acs_second_post_finds_no_flow (E := Demo.env) Demo.plain _ _ _ _ _ _
             "ALICE@example.com" "alice" "F" "L"
             (alice_identity_validated Demo.started eq_refl) attributes_alice
             Demo.alice "/sso/login/" (Demo.post "alice") eq_refl); [done| |done].
  intros path Hpath. discriminate Hpath.
Defined.

Lemma X11_witness :
  exists u mail,
    u ∈ users Demo.started /\ pk u = 1 /\ is_active u = true /\
    lower (email u) = lower mail.
Proof.
  destruct (acs_logs_in_only_active_matches (E := Demo.env) Demo.plain
              (Demo.post "alice") Demo.started
              (trace (snd (acs (E := Demo.env) Demo.plain (Demo.post "alice")
                             Demo.started))) 1)
    as (u & mail & Hin & Hpk & Hact & _ & Hmatch & _).
  - reflexivity.
  - apply list_elem_of_In. vm_compute. intuition.
  - by exists u, mail.
Defined.

Lemma X12_witness :
  session (snd (acs (E := Demo.env) Demo.plain (Demo.post "mallory") Demo.started))
    = session Demo.started /\
  session (snd (acs (E := Demo.env) Demo.plain (Demo.post "alice") Demo.started))
    !! "login_next_url" = None.
Proof.
  split.
  - destruct (acs_keeps_or_flushes_session (E := Demo.env) Demo.plain
                (Demo.post "mallory") Demo.started
                (trace (snd (acs (E := Demo.env) Demo.plain (Demo.post "mallory")
                               Demo.started))) eq_refl)
      as (Hkeep & _).
    apply Hkeep. intros Hin. apply list_elem_of_In in Hin. vm_compute in Hin.
    intuition discriminate.
  - destruct (acs_keeps_or_flushes_session (E := Demo.env) Demo.plain
                (Demo.post "alice") Demo.started
                (trace (snd (acs (E := Demo.env) Demo.plain (Demo.post "alice")
                               Demo.started))) eq_refl)
      as (_ & Hflushed).
    apply Hflushed. apply list_elem_of_In. vm_compute. intuition.
Defined.

Lemma X13_witness :
  acs_response (E := Demo.env) Demo.plain Demo.started
    (HttpResponseRedirect (Some "/dashboard")).
Proof.
  apply (acs_answers_with_four_redirects (E := Demo.env) Demo.plain
           (Demo.post "alice") Demo.started). reflexivity.
Defined.

Lemma X14_witness :
  EClient (loaded (config (Demo2.client_of None)))
    ∈ trace (snd (signin (E := Demo.env) Demo.plain (Demo.get "/reports") Demo.started)) /\
  EClient (loaded (config (Demo2.client_of None)))
    ∈ trace (snd (acs (E := Demo.env) Demo.plain (Demo.post "alice") Demo.started)) /\
  loaded (config (Demo2.client_of None)) = loaded (config (Demo2.client_of None)).
Proof.
  assert (H1 : EClient (loaded (config (Demo2.client_of None)))
                 ∈ trace (snd (signin (E := Demo.env) Demo.plain (Demo.get "/reports")
                                 Demo.started))).
  { apply list_elem_of_In. vm_compute. intuition. }
  assert (H2 : EClient (loaded (config (Demo2.client_of None)))
                 ∈ trace (snd (acs (E := Demo.env) Demo.plain (Demo.post "alice")
                                 Demo.started))).
  { apply list_elem_of_In. vm_compute. intuition. }
  split; [exact H1|]. split; [exact H2|].
  exact (signin_and_acs_build_the_same_settings (E := Demo.env) Demo.plain
           (Demo.get "/reports") Demo.started (Demo.post "alice") Demo.started
           _ _ _ _ eq_refl eq_refl eq_refl eq_refl eq_refl H1 H2).
Defined.

Lemma X15_witness :
  exists path,
    entityid (loaded (config (Demo2.client_of None))) <> None /\
    first_reverse (E := Demo.env)
      [ViewFn "acs"; ViewName "acs"; ViewName "django_saml2_auth:acs"] = Some path.
Proof.
  destruct (acs_entity_id_from_assertion_url (E := Demo.env) Demo2.fixed
              "https://sso.example" (Demo.post "alice") Demo.started
              (trace (snd (acs (E := Demo.env) Demo2.fixed (Demo.post "alice")
                             Demo.started)))
              {| metadata := MdInline ["<EntityDescriptor/>"];
                 service_sp :=
                   {| assertion_consumer_service :=
                        [("https://sso.example/sso/acs/", BINDING_HTTP_REDIRECT);
                         ("https://sso.example/sso/acs/", BINDING_HTTP_POST)];
                      allow_unsolicited := true; authn_requests_signed := false;
                      logout_requests_signed := true; want_assertions_signed := true;
                      want_response_signed := false; name_id_format := None |};
                 entityid := Some "https://sso.example/sso/acs/" |}
              eq_refl eq_refl)
    as (path & Hpath & _).
  - apply list_elem_of_In. vm_compute. intuition.
  - exists path. split; [discriminate|exact Hpath].
Defined.

Lemma X16_witness :
  fst (signout Demo2.no_template (Demo.post "alice") Demo.started)
    = Raise (External "TemplateDoesNotExist") /\
  session (snd (signout Demo2.no_template (Demo.post "alice") Demo.started)) = ∅ /\
  fst (acs (E := Demo.env) Demo.plain (Demo.post "alice")
         (snd (signout Demo2.no_template (Demo.post "alice") Demo.started)))
    = Ret (HttpResponseRedirect (Some "/sso/login/")).
Proof.
  destruct (signout_ends_the_flow (E := Demo.env) Demo.plain Demo2.no_template
              (Demo.post "alice") Demo.started (Demo.post "alice") "/sso/login/" eq_refl)
    as (Hresp & Hs & _ & _ & Hacs).
  by repeat split.
Defined.

Lemma X17_witness :
  signin (E := Demo2.bare) Demo2.fixed (Demo.get "/reports") Demo.started
    = (Raise (ReverseIssue [ViewName "admin:index"]), Demo.started).
Proof.
  apply (signin_needs_the_default_route (E := Demo2.bare)). reflexivity.
Defined.

Lemma X18_witness :
  fst (signin (E := Demo.env) Demo.plain (Demo.get "/reports") Demo.started)
    = Ret (HttpResponseRedirect (Some "https://idp.example/sso?SAMLRequest=abc")) /\
  fst (signin (E := Demo2.hooked) Demo.plain (Demo.get "/reports") Demo.started)
    = Ret (HttpResponseRedirect None).
Proof.
  split.
  - destruct (signin_redirects_to_location (E := Demo.env) Demo.plain
                (Demo.get "/reports") Demo.started "/admin/" (Demo2.client_of None)
                eq_refl eq_refl eq_refl) as (_ & _ & Hheaders).
    destruct (Hheaders "id-1" _ eq_refl) as [_ Hfirst].
    apply (Hfirst [("Cache-Control", "no-cache")] _ []); [reflexivity|].
    intros key value Hin. apply elem_of_cons in Hin as [[= -> _]|Hin]; [discriminate|].
    by apply elem_of_nil in Hin.
  - destruct (signin_redirects_to_location (E := Demo2.hooked) Demo.plain
                (Demo.get "/reports") Demo.started "/admin/" (Demo2.client_of None)
                eq_refl eq_refl eq_refl) as (_ & _ & Hheaders).
    destruct (Hheaders "id-2" _ eq_refl) as [Hnone _].
    apply Hnone.
    intros key value Hin. apply elem_of_cons in Hin as [[= -> _]|Hin]; [discriminate|].
    by apply elem_of_nil in Hin.
Defined.

Lemma X19_witness :
  session (snd (signin (E := Demo.env) Demo.plain (Demo.get "/reports") Demo.started))
    !! "saml_metadata_conf_raw" = Some "<EntityDescriptor/>" /\
  Demo.local_path "/reports" None = true.
Proof.
  destruct (signin_stores_only_checked_targets (E := Demo.env) Demo.plain
              (Demo.get "/reports") Demo.started
              (trace (snd (signin (E := Demo.env) Demo.plain (Demo.get "/reports")
                             Demo.started))) eq_refl)
    as (Hstored & Hkeys & _).
  split.
  - by rewrite Hkeys.
  - apply (Hstored "login_next_url" "/reports").
    apply list_elem_of_In. vm_compute. intuition.
Defined.

Lemma X20_witness :
  fst (acs (E := Demo.env) Demo.plain (Demo.post "alice")
         (snd (signin (E := Demo.env) Demo.plain (Demo.get "/reports") Demo.started)))
    = Ret (HttpResponseRedirect (Some "/reports")).
Proof.
  assert (Hv : validated (E := Demo.env) Demo.plain (Demo.post "alice")
                 (snd (signin (E := Demo.env) Demo.plain (Demo.get "/reports")
                         Demo.started))
                 (Demo2.client_of None) "/admin/" "alice"
                 (Demo.identity_of ["ALICE@example.com"; "alias@example.com"] "alice")).
  { repeat split; try reflexivity; try discriminate.
    eexists. split; reflexivity. }
  assert (Hret : before_login_returns (E := Demo.env) Demo.plain
                   (Demo.identity_of ["ALICE@example.com"; "alias@example.com"] "alice")).
  { intros path Hpath. discriminate Hpath. }
  exact (proj1 (acs_redirects_to_the_target_of_signin (E := Demo.env) Demo.plain
                  (Demo.get "/reports") Demo.started "/admin/" (Demo.post "alice")
                  (Demo2.client_of None) "alice"
                  (Demo.identity_of ["ALICE@example.com"; "alias@example.com"] "alice")
                  "ALICE@example.com" "alice" "F" "L" Demo.alice eq_refl eq_refl
                  Hv attributes_alice eq_refl eq_refl Hret)).
Defined.

Lemma X23_witness :
  fst (_create_new_user (E := Demo.env) (Demo2.with_hook "hooks.audit")
         Demo2.fold_first "Dave" "dave@example.com" "D" "E" Demo.started)
    = Raise (GroupDoesNotExist "finance") /\
  map username
    (users (snd (_create_new_user (E := Demo.env) (Demo2.with_hook "hooks.audit")
                   Demo2.fold_first "Dave" "dave@example.com" "D" "E" Demo.started)))
    = ["alice"; "carol"; "dave"].
Proof.
  rewrite (_create_new_user_missing_group (E := Demo.env) (Demo2.with_hook "hooks.audit")
             Demo2.fold_first "Dave" "dave@example.com" "D" "E" Demo.started
             ["staff"] "finance" []).
  - by split.
  - discriminate.
  - intros u Hu.
    apply elem_of_cons in Hu as [->|Hu]; [discriminate|].
    apply elem_of_cons in Hu as [->|Hu]; [discriminate|].
    by apply elem_of_nil in Hu.
  - reflexivity.
  - intros g Hg. exact Hg.
  - intros Hin. apply elem_of_cons in Hin as [Heq|Hin]; [discriminate|].
    by apply elem_of_nil in Hin.
Defined.

Lemma X24_witness :
  fst (welcome (E := Demo.env) Demo2.fixed Demo2.no_template Demo2.to_login_page
         (Demo.post "alice")
         (snd (acs (E := Demo.env) Demo.plain (Demo.post "alice") Demo.started)))
    = Ret (HttpResponseRedirect (Some "/admin/")) /\
  fst (welcome (E := Demo.env) Demo2.fixed Demo2.no_template Demo2.to_login_page
         (Demo.post "alice") Demo.started)
    = Ret (HttpResponseRedirect (Some "/accounts/login/")).
Proof.
  split.
  - destruct (welcome_outcomes (E := Demo.env) Demo2.fixed Demo2.no_template
                Demo2.to_login_page (Demo.post "alice")
                (snd (acs (E := Demo.env) Demo.plain (Demo.post "alice") Demo.started)))
      as (_ & _ & _ & Hmissing).
    by rewrite Hmissing.
  - destruct (welcome_outcomes (E := Demo.env) Demo2.fixed Demo2.no_template
                Demo2.to_login_page (Demo.post "alice") Demo.started)
      as (_ & Hanon & _).
    by apply Hanon.
Defined.

Lemma X25_witness :
  str_contains "next=" "/login?next=/dashboard" = true /\
  str_contains "next=" "/dashboard" = false.
Proof.
  split.
  - apply str_contains_substring. by exists "/login?", "/dashboard".
  - reflexivity.
Defined.
